(** * LLM inference platform: request handling and streaming relay

    A shallow embedding of [app/models.py], [app/config.py] and
    [app/main.py].  Python objects become records, the module-level
    [metrics] dict and the calls made on the OpenAI client become an
    explicit world that every handler threads, exceptions become a
    result type, and the async generator [stream_openai_response] becomes
    a resumable state machine that the server pulls one event at a time. *)

From Stdlib Require Import String Ascii List ZArith Bool Lia PrimFloat.
Import ListNotations.
Local Open Scope string_scope.
Local Open Scope Z_scope.

(** ** Python values shared by all modules *)

(** Truthiness of an [Optional[bool]]: [None] and [False] are falsy. *)
Definition truthy_bool (b : option bool) : bool :=
  match b with
  | Some true => true
  | _ => false
  end.

(** Truthiness of an [Optional[str]]: [None] and the empty string are falsy. *)
Definition truthy_str (s : option string) : bool :=
  match s with
  | Some (String _ _) => true
  | _ => false
  end.

(** The line feed of the ["\n"] escapes. *)
Definition LF : string := String "010"%char EmptyString.

(** ** app/config.py *)

Module config.

Record Settings := {
  OPENAI_API_KEY : string;
  OPENAI_MODEL : string;
  RATE_LIMIT : string
}.

(** [Settings.validate]: the process refuses to start without a key. *)
Definition validate (s : Settings) : option bool :=
  match OPENAI_API_KEY s with
  | EmptyString => None
  | _ => Some true
  end.

End config.

(** ** app/models.py *)

Module models.

Record ChatMessage := {
  role : string;
  content : string
}.

(** [msg.model_dump()]: the message as a dict, keys in field order. *)
Definition model_dump (m : ChatMessage) : list (string * string) :=
  [("role", role m); ("content", content m)].

(** A field of the inbound JSON body: left out, [null], or a value of
    the declared type. *)
Inductive field (A : Type) : Type :=
| Absent
| Null
| Given (a : A).
Arguments Absent {A}.
Arguments Null {A}.
Arguments Given {A} a.

Record Body := {
  body_messages : field (list ChatMessage);
  body_max_tokens : field Z;
  body_temperature : field float;
  body_stream : field bool
}.

Record InferenceRequest := {
  messages : list ChatMessage;
  max_tokens : option Z;
  temperature : option float;
  stream : option bool
}.

(** An [Optional] field with a default: the default when left out,
    [None] on [null], the value otherwise. *)
Definition optional {A} (default : A) (f : field A) : option A :=
  match f with
  | Absent => Some default
  | Null => None
  | Given a => Some a
  end.

(** [Field(0.7, ge=0.0, le=2.0)]: a given value is refused when it is
    below [ge] or above [le]. *)
Definition temperature_ok (f : field float) : bool :=
  match f with
  | Given t => negb (PrimFloat.ltb t 0%float) && negb (PrimFloat.ltb 2%float t)
  | _ => true
  end.

(** The binary64 value that the Python literal [0.7] denotes. *)
Definition default_temperature : float := 0x1.6666666666666p-1%float.

(** Validation of the body against [InferenceRequest].  [messages] is
    required and not nullable, and carries no length constraint. *)
Definition validate (b : Body) : option InferenceRequest :=
  match body_messages b with
  | Given ms =>
      if temperature_ok (body_temperature b) then
        Some {| messages := ms;
                max_tokens := optional 500 (body_max_tokens b);
                temperature := optional default_temperature (body_temperature b);
                stream := optional false (body_stream b) |}
      else None
  | _ => None
  end.

Record InferenceResponse := {
  id : string;
  model : string;
  response_content : string;
  finish_reason : string;
  usage : list (string * Z)
}.

End models.

(** ** Exceptions *)

Module exceptions.

(** The exception classes that [app/main.py] raises or catches:
    [openai.RateLimitError], a subclass of [openai.APIError];
    [openai.APIError]; FastAPI's [HTTPException]; slowapi's
    [RateLimitExceeded]; and [Exception] for every other subclass of
    [Exception] ([IndexError], [AttributeError], pydantic's
    [ValidationError], ...).  Each carries what [str(e)] shows. *)
Inductive exn : Type :=
| RateLimitError (message : string)
| APIError (message : string)
| Exception (message : string)
| HTTPException (status_code : Z) (detail : string)
| RateLimitExceeded (detail : string).

Definition isinstance_RateLimitError (e : exn) : bool :=
  match e with
  | RateLimitError _ => true
  | _ => false
  end.

Definition isinstance_APIError (e : exn) : bool :=
  match e with
  | RateLimitError _ | APIError _ => true
  | _ => false
  end.

(** [str(e)] *)
Definition str (e : exn) : string :=
  match e with
  | RateLimitError m | APIError m | Exception m => m
  | HTTPException _ d | RateLimitExceeded d => d
  end.

End exceptions.

Export exceptions.

(** ** The OpenAI SDK, as far as [app/main.py] touches it *)

Module openai.

Record CompletionUsage := {
  prompt_tokens : Z;
  completion_tokens : Z;
  total_tokens : Z
}.

Record ChatCompletionMessage := {
  content : option string
}.

Record Choice := {
  finish_reason : string;
  message : ChatCompletionMessage
}.

Record ChatCompletion := {
  id : string;
  choices : list Choice;
  model : string;
  usage : option CompletionUsage
}.

Record ChoiceDelta := {
  delta_content : option string
}.

Record ChunkChoice := {
  delta : ChoiceDelta
}.

Record ChatCompletionChunk := {
  chunk_choices : list ChunkChoice
}.

(** What iterating a streaming call produces: the chunks received, then
    either the end of the stream or an exception raised by the
    iteration. *)
Record Stream := {
  chunks : list ChatCompletionChunk;
  failure : option exn
}.

(** The keyword arguments of [client.chat.completions.create]. *)
Record CreateArgs := {
  arg_model : string;
  arg_messages : list (list (string * string));
  arg_max_tokens : option Z;
  arg_temperature : option float;
  arg_stream : bool
}.

(** The provider: what a call returns or raises, in either mode. *)
Record Client := {
  create : CreateArgs -> exn + ChatCompletion;
  create_stream : CreateArgs -> exn + Stream
}.

End openai.

(** ** The world the handlers run in *)

(** The module-level [metrics] dict; its four keys are fixed at import. *)
Record Metrics := {
  total_requests : Z;
  successful_requests : Z;
  failed_requests : Z;
  total_tokens : Z
}.

Inductive key : Type :=
| Ktotal_requests
| Ksuccessful_requests
| Kfailed_requests
| Ktotal_tokens.

(** [metrics[k] += n] *)
Definition metrics_iadd (k : key) (n : Z) (m : Metrics) : Metrics :=
  match k with
  | Ktotal_requests =>
      {| total_requests := total_requests m + n;
         successful_requests := successful_requests m;
         failed_requests := failed_requests m;
         total_tokens := total_tokens m |}
  | Ksuccessful_requests =>
      {| total_requests := total_requests m;
         successful_requests := successful_requests m + n;
         failed_requests := failed_requests m;
         total_tokens := total_tokens m |}
  | Kfailed_requests =>
      {| total_requests := total_requests m;
         successful_requests := successful_requests m;
         failed_requests := failed_requests m + n;
         total_tokens := total_tokens m |}
  | Ktotal_tokens =>
      {| total_requests := total_requests m;
         successful_requests := successful_requests m;
         failed_requests := failed_requests m;
         total_tokens := total_tokens m + n |}
  end.

(** The counters, and the calls made on the provider so far (latest
    last). *)
Record World := {
  metrics : Metrics;
  upstream_calls : list openai.CreateArgs
}.

(** ** A state and exception monad for handler bodies

    Side effects made before an exception is raised stay made. *)

Inductive result (A : Type) : Type :=
| Return (a : A)
| Raise (e : exn).
Arguments Return {A} a.
Arguments Raise {A} e.

Definition M (A : Type) : Type := World -> result A * World.

Definition ret {A} (a : A) : M A := fun w => (Return a, w).

Definition raise {A} (e : exn) : M A := fun w => (Raise e, w).

Definition bind {A B} (c : M A) (k : A -> M B) : M B :=
  fun w =>
    match c w with
    | (Return a, w') => k a w'
    | (Raise e, w') => (Raise e, w')
    end.

(** [try: c  except ... as e: h e] where the clauses of [h] together
    catch every [Exception]. *)
Definition try_except {A} (c : M A) (h : exn -> M A) : M A :=
  fun w =>
    match c w with
    | (Return a, w') => (Return a, w')
    | (Raise e, w') => h e w'
    end.

Declare Scope py_scope.
Delimit Scope py_scope with py.
Notation "x <- c ;; k" := (bind c (fun x => k))
  (at level 61, c at next level, right associativity) : py_scope.
Notation "c ;; k" := (bind c (fun _ => k))
  (at level 61, right associativity) : py_scope.
Local Open Scope py_scope.

Definition iadd (k : key) (n : Z) : M unit :=
  fun w => (Return tt, {| metrics := metrics_iadd k n (metrics w);
                          upstream_calls := upstream_calls w |}).

(** ** app/main.py *)

Section main.

Variable settings : config.Settings.
Variable client : openai.Client.

(** [client.chat.completions.create(..., stream=False)] *)
Definition chat_completions_create (args : openai.CreateArgs)
  : M openai.ChatCompletion :=
  fun w =>
    let w' := {| metrics := metrics w;
                 upstream_calls := upstream_calls w ++ [args] |} in
    match openai.create client args with
    | inl e => (Raise e, w')
    | inr response => (Return response, w')
    end.

(** [response.choices[0]] *)
Definition getitem0 {A} (l : list A) : M A :=
  match l with
  | x :: _ => ret x
  | [] => raise (Exception "list index out of range")
  end.

(** [response.usage.total_tokens] needs a usage object. *)
Definition getattr_usage (response : openai.ChatCompletion)
  : M openai.CompletionUsage :=
  match openai.usage response with
  | Some u => ret u
  | None =>
      raise (Exception "'NoneType' object has no attribute 'total_tokens'")
  end.

(** [InferenceResponse(...)]: every field is required, and [content]
    must be a [str]. *)
Definition InferenceResponse (id model : string) (content : option string)
    (finish_reason : string) (usage : list (string * Z))
  : M models.InferenceResponse :=
  match content with
  | Some text =>
      ret {| models.id := id;
             models.model := model;
             models.response_content := text;
             models.finish_reason := finish_reason;
             models.usage := usage |}
  | None => raise (Exception "1 validation error for InferenceResponse")
  end.

Definition create_args (inference_request : models.InferenceRequest)
    (stream : bool) : openai.CreateArgs :=
  {| openai.arg_model := config.OPENAI_MODEL settings;
     openai.arg_messages :=
       map models.model_dump (models.messages inference_request);
     openai.arg_max_tokens := models.max_tokens inference_request;
     openai.arg_temperature := models.temperature inference_request;
     openai.arg_stream := stream |}.

(** The three [except] clauses of [generate_inference], in order. *)
Definition except_blocking {A} (e : exn) : M A :=
  if isinstance_RateLimitError e then
    iadd Kfailed_requests 1 ;;
    raise (HTTPException 429 "Rate limit exceeded at OpenAI")
  else if isinstance_APIError e then
    iadd Kfailed_requests 1 ;;
    raise (HTTPException 502 ("LLM service error: " ++ str e))
  else
    iadd Kfailed_requests 1 ;;
    raise (HTTPException 500 "Internal server error").

(** The body of the [POST /v1/inference] handler. *)
Definition generate_inference (inference_request : models.InferenceRequest)
  : M models.InferenceResponse :=
  iadd Ktotal_requests 1 ;;
  if truthy_bool (models.stream inference_request) then
    raise (HTTPException 400
             "For streaming responses, use POST /v1/inference/stream")
  else
    try_except
      (response <- chat_completions_create
                     (create_args inference_request false) ;;
       completion <- getitem0 (openai.choices response) ;;
       let content := openai.content (openai.message completion) in
       iadd Ksuccessful_requests 1 ;;
       usage <- getattr_usage response ;;
       iadd Ktotal_tokens (openai.total_tokens usage) ;;
       InferenceResponse
         (openai.id response)
         (openai.model response)
         content
         (openai.finish_reason completion)
         [("prompt_tokens", openai.prompt_tokens usage);
          ("completion_tokens", openai.completion_tokens usage);
          ("total_tokens", openai.total_tokens usage)])
      except_blocking.

(** *** The async generator [stream_openai_response]

    A generator object is the point at which its body is suspended. *)
Inductive Generator : Type :=
| Created (inference_request : models.InferenceRequest)
| InLoop (rest : list openai.ChatCompletionChunk) (failure : option exn)
| AtDone
| AtError
| Closed.

(** What one resumption gives: the event yielded, or [None] when the
    body has run to its end, and where the body stands then. *)
Definition Resumed : Type := option string * Generator.

(** [client.chat.completions.create(..., stream=True)] *)
Definition chat_completions_create_stream (args : openai.CreateArgs)
  : M openai.Stream :=
  fun w =>
    let w' := {| metrics := metrics w;
                 upstream_calls := upstream_calls w ++ [args] |} in
    match openai.create_stream client args with
    | inl e => (Raise e, w')
    | inr stream => (Return stream, w')
    end.

(** The three [except] clauses of [stream_openai_response], in order. *)
Definition except_stream (e : exn) : M Resumed :=
  if isinstance_RateLimitError e then
    iadd Kfailed_requests 1 ;;
    ret (Some ("data: [ERROR] Rate limit exceeded" ++ LF ++ LF), AtError)
  else if isinstance_APIError e then
    iadd Kfailed_requests 1 ;;
    ret (Some ("data: [ERROR] LLM service error: " ++ str e ++ LF ++ LF),
         AtError)
  else
    iadd Kfailed_requests 1 ;;
    ret (Some ("data: [ERROR] Internal server error" ++ LF ++ LF), AtError).

(** [for chunk in stream: ...] up to the next [yield], followed by the
    end-of-stream marker. *)
Fixpoint for_chunk_in (stream : list openai.ChatCompletionChunk)
    (failure : option exn) : M Resumed :=
  match stream with
  | chunk :: rest =>
      match openai.chunk_choices chunk with
      | choice :: _ =>
          let delta := openai.delta choice in
          if truthy_str (openai.delta_content delta) then
            match openai.delta_content delta with
            | Some content =>
                ret (Some ("data: " ++ content ++ LF ++ LF),
                     InLoop rest failure)
            | None => for_chunk_in rest failure
            end
          else for_chunk_in rest failure
      | [] => for_chunk_in rest failure
      end
  | [] =>
      match failure with
      | Some e => raise e
      | None => ret (Some ("data: [DONE]" ++ LF ++ LF), AtDone)
      end
  end.

(** [await generator.__anext__()]: the body runs from where it is
    suspended to its next [yield] or to its end. *)
Definition anext (g : Generator) : M Resumed :=
  match g with
  | Created inference_request =>
      try_except
        (stream <- chat_completions_create_stream
                     (create_args inference_request true) ;;
         for_chunk_in (openai.chunks stream) (openai.failure stream))
        except_stream
  | InLoop rest failure =>
      try_except (for_chunk_in rest failure) except_stream
  | AtDone =>
      try_except
        (iadd Ksuccessful_requests 1 ;;
         ret (None, Closed))
        except_stream
  | AtError => ret (None, Closed)
  | Closed => ret (None, Closed)
  end.

Definition stream_openai_response
    (inference_request : models.InferenceRequest) : Generator :=
  Created inference_request.

Record StreamingResponse := {
  body_iterator : Generator;
  media_type : string;
  headers : list (string * string)
}.

(** The body of the [POST /v1/inference/stream] handler. *)
Definition generate_inference_stream
    (inference_request : models.InferenceRequest) : M StreamingResponse :=
  iadd Ktotal_requests 1 ;;
  ret {| body_iterator := stream_openai_response inference_request;
         media_type := "text/event-stream";
         headers := [("Cache-Control", "no-cache");
                     ("Connection", "keep-alive")] |}.

(** *** The framework around the handlers *)

(** What the rate limiter decides for a request; on rejection, the
    limit it reports. *)
Inductive Decision : Type :=
| Admit
| Reject (limit : string).

(** [@limiter.limit(...)]: the check runs before the decorated body. *)
Definition limiter_limit {A} (d : Decision) (endpoint : M A) : M A :=
  match d with
  | Admit => endpoint
  | Reject limit => raise (RateLimitExceeded limit)
  end.

(** What the server iterating a [StreamingResponse] sends: events are
    pulled until the generator is exhausted or raises, at most [pulls]
    times (a client that disconnects stops the pulling early).  The
    middle component is where the generator stands, or what it
    raised. *)
Fixpoint send_body (pulls : nat) (g : Generator) (w : World)
  : list string * result Generator * World :=
  match pulls with
  | O => ([], Return g, w)
  | S n =>
      match anext g w with
      | (Return (Some event, g'), w') =>
          let '(events, end_, w'') := send_body n g' w' in
          (event :: events, end_, w'')
      | (Return (None, g'), w') => ([], Return g', w')
      | (Raise e, w') => ([], Raise e, w')
      end
  end.

Inductive Content : Type :=
| JSONInference (r : models.InferenceResponse)
| JSONDetail (detail : string)
| JSONError (error : string)
| JSONValidationErrors
| EventStream (events : list string).

Record Response := {
  status_code : Z;
  content : Content
}.

(** The exception handlers installed on the app: FastAPI's for
    [HTTPException], slowapi's [_rate_limit_exceeded_handler], and the
    server's last resort. *)
Definition exception_handler (e : exn) : Response :=
  match e with
  | HTTPException status detail =>
      {| status_code := status; content := JSONDetail detail |}
  | RateLimitExceeded limit =>
      {| status_code := 429;
         content := JSONError ("Rate limit exceeded: " ++ limit) |}
  | _ =>
      {| status_code := 500; content := JSONDetail "Internal Server Error" |}
  end.

(** [POST /v1/inference]: body validation, then the limiter, then the
    handler. *)
Definition post_v1_inference (body : models.Body) (d : Decision)
    (w : World) : Response * World :=
  match models.validate body with
  | None => ({| status_code := 422; content := JSONValidationErrors |}, w)
  | Some inference_request =>
      match limiter_limit d (generate_inference inference_request) w with
      | (Return r, w') =>
          ({| status_code := 200; content := JSONInference r |}, w')
      | (Raise e, w') => (exception_handler e, w')
      end
  end.

(** [POST /v1/inference/stream]: as above; the returned generator is
    then iterated by the server. *)
Definition post_v1_inference_stream (body : models.Body) (d : Decision)
    (pulls : nat) (w : World) : Response * World :=
  match models.validate body with
  | None => ({| status_code := 422; content := JSONValidationErrors |}, w)
  | Some inference_request =>
      match limiter_limit d (generate_inference_stream inference_request) w
      with
      | (Return r, w') =>
          let '(events, _, w'') := send_body pulls (body_iterator r) w' in
          ({| status_code := 200; content := EventStream events |}, w'')
      | (Raise e, w') => (exception_handler e, w')
      end
  end.

End main.

(** ** Vocabulary for the statements *)

(** The events of the streaming wire format. *)
Inductive Event : Type :=
| Token (text : string)
| Done
| Error (description : string).

(** The server-sent-event line of an event. *)
Definition sse (ev : Event) : string :=
  match ev with
  | Token text => "data: " ++ text ++ LF ++ LF
  | Done => "data: [DONE]" ++ LF ++ LF
  | Error description => "data: [ERROR] " ++ description ++ LF ++ LF
  end.

(** The text of an upstream fragment; a chunk without choices or without
    content has the empty text. *)
Definition fragment_text (chunk : openai.ChatCompletionChunk) : string :=
  match openai.chunk_choices chunk with
  | choice :: _ =>
      match openai.delta_content (openai.delta choice) with
      | Some text => text
      | None => ""
      end
  | [] => ""
  end.

Definition nonempty (s : string) : bool :=
  match s with
  | EmptyString => false
  | String _ _ => true
  end.

(** The content events owed to a sequence of fragments. *)
Definition relayed (chunks : list openai.ChatCompletionChunk) : list Event :=
  map Token (filter nonempty (map fragment_text chunks)).

(** What the caller is told about a failure, by class of exception. *)
Definition error_description (e : exn) : string :=
  match e with
  | RateLimitError _ => "Rate limit exceeded"
  | APIError message => "LLM service error: " ++ message
  | _ => "Internal server error"
  end.

(** The terminal event owed to the way a sequence ended. *)
Definition terminal (failure : option exn) : Event :=
  match failure with
  | None => Done
  | Some e => Error (error_description e)
  end.

(** The counter that the end of a sequence bumps. *)
Definition outcome_key (failure : option exn) : key :=
  match failure with
  | None => Ksuccessful_requests
  | Some _ => Kfailed_requests
  end.

(** A streaming call seen from the relay: the fragments received and how
    the sequence ended.  A call that raises at once is a sequence that
    fails before its first fragment. *)
Definition received (r : exn + openai.Stream)
  : list openai.ChatCompletionChunk * option exn :=
  match r with
  | inl e => ([], Some e)
  | inr stream => (openai.chunks stream, openai.failure stream)
  end.

(** The world after one more call on the provider. *)
Definition called (args : openai.CreateArgs) (w : World) : World :=
  {| metrics := metrics w; upstream_calls := upstream_calls w ++ [args] |}.

(** The world after [metrics[k] += n]. *)
Definition counted (k : key) (n : Z) (w : World) : World :=
  {| metrics := metrics_iadd k n (metrics w);
     upstream_calls := upstream_calls w |}.

(** A generator whose body has begun to run. *)
Definition started (g : Generator) : bool :=
  match g with
  | Created _ => false
  | _ => true
  end.

(** [haystack] contains [needle] somewhere. *)
Definition mentions (haystack needle : string) : bool :=
  match String.index 0 needle haystack with
  | Some _ => true
  | None => false
  end.

(** The body with its [stream] field replaced. *)
Definition with_stream (flag : models.field bool) (body : models.Body)
  : models.Body :=
  {| models.body_messages := models.body_messages body;
     models.body_max_tokens := models.body_max_tokens body;
     models.body_temperature := models.body_temperature body;
     models.body_stream := flag |}.

(** The status and the detail that the blocking handler gives a failed
    upstream call, by class of exception. *)
Definition blocking_status (e : exn) : Z :=
  match e with
  | RateLimitError _ => 429
  | APIError _ => 502
  | _ => 500
  end.

Definition blocking_detail (e : exn) : string :=
  match e with
  | RateLimitError _ => "Rate limit exceeded at OpenAI"
  | APIError message => "LLM service error: " ++ message
  | _ => "Internal server error"
  end.


(** ** Sample data *)

Definition sample_settings : config.Settings :=
  {| config.OPENAI_API_KEY := "sk-test";
     config.OPENAI_MODEL := "gpt-3.5-turbo";
     config.RATE_LIMIT := "10/minute" |}.

(** A provider that answers every call the same way. *)
Definition mock_client (blocking : exn + openai.ChatCompletion)
    (streaming : exn + openai.Stream) : openai.Client :=
  {| openai.create := fun _ => blocking;
     openai.create_stream := fun _ => streaming |}.

Definition hi_body : models.Body :=
  {| models.body_messages :=
       models.Given [{| models.role := "user"; models.content := "hi" |}];
     models.body_max_tokens := models.Given 10;
     models.body_temperature := models.Given models.default_temperature;
     models.body_stream := models.Given false |}.

Definition hi_request : models.InferenceRequest :=
  {| models.messages := [{| models.role := "user"; models.content := "hi" |}];
     models.max_tokens := Some 10;
     models.temperature := Some models.default_temperature;
     models.stream := Some false |}.

Definition hello_completion : openai.ChatCompletion :=
  {| openai.id := "x1";
     openai.choices :=
       [{| openai.finish_reason := "stop";
           openai.message := {| openai.content := Some "hello" |} |}];
     openai.model := "m";
     openai.usage :=
       Some {| openai.prompt_tokens := 3;
               openai.completion_tokens := 1;
               openai.total_tokens := 4 |} |}.

Definition text_chunk (text : string) : openai.ChatCompletionChunk :=
  {| openai.chunk_choices :=
       [{| openai.delta := {| openai.delta_content := Some text |} |}] |}.

Definition hello_stream (failure : option exn) : openai.Stream :=
  {| openai.chunks := [text_chunk "Hel"; text_chunk ""; text_chunk "lo"];
     openai.failure := failure |}.

Definition fresh_world : World :=
  {| metrics := {| total_requests := 0;
                   successful_requests := 0;
                   failed_requests := 0;
                   total_tokens := 0 |};
     upstream_calls := [] |}.




Definition hi_request_streaming : models.InferenceRequest :=
  {| models.messages := models.messages hi_request;
     models.max_tokens := models.max_tokens hi_request;
     models.temperature := models.temperature hi_request;
     models.stream := Some true |}.

(** What the provider says when the key is wrong. *)
Definition key_error : string :=
  "Error code: 401 - Incorrect API key provided: sk-test".

(** ** app/config.py: the settings object at import *)

(** [os.getenv(key, default)] on the process environment. *)
Definition getenv (environ : string -> option string) (key default : string)
  : string :=
  match environ key with
  | Some value => value
  | None => default
  end.

(** [Settings()]: the class attributes, evaluated at import. *)
Definition Settings (environ : string -> option string) : config.Settings :=
  {| config.OPENAI_API_KEY := getenv environ "OPENAI_API_KEY" "";
     config.OPENAI_MODEL := getenv environ "OPENAI_MODEL" "gpt-3.5-turbo";
     config.RATE_LIMIT := "10/minute" |}.

(** Importing [app.config]: [settings = Settings()], then
    [settings.validate()], whose [ValueError] aborts the import. *)
Definition import_config (environ : string -> option string)
  : exn + config.Settings :=
  let settings := Settings environ in
  match config.validate settings with
  | Some _ => inr settings
  | None =>
      inl (Exception "OPENAI_API_KEY must be set in environment variables")
  end.

(** ** app/main.py: the read-only endpoints *)

Definition APP_VERSION : string := "1.0.0".

Record HealthResponse := {
  health_status : string;
  health_version : string;
  health_model : string
}.

(** [GET /health] *)
Definition health_check (settings : config.Settings) : HealthResponse :=
  {| health_status := "healthy";
     health_version := APP_VERSION;
     health_model := config.OPENAI_MODEL settings |}.

(** A number in a JSON body: an [int], or the float that the true
    division [dividend / divisor] of two ints gives, kept as its
    operands. *)
Inductive number : Type :=
| Int (z : Z)
| TrueDiv (dividend divisor : Z).

Record MetricsReport := {
  report_total_requests : Z;
  report_successful_requests : Z;
  report_failed_requests : Z;
  total_tokens_processed : Z;
  success_rate : number
}.

(** [GET /metrics] *)
Definition get_metrics (w : World) : MetricsReport :=
  {| report_total_requests := total_requests (metrics w);
     report_successful_requests := successful_requests (metrics w);
     report_failed_requests := failed_requests (metrics w);
     total_tokens_processed := total_tokens (metrics w);
     success_rate :=
       if 0 <? total_requests (metrics w) then
         TrueDiv (successful_requests (metrics w)) (total_requests (metrics w))
       else Int 0 |}.

(** ** The server: requests and open streams, interleaved

    Neither handler body nor the generator body awaits anything, so each
    runs undisturbed from one [yield] to the next; between two events of
    a stream the server may serve other requests and other streams. *)

(** An open stream: the provider behaviour it meets, and its generator. *)
Definition OpenStream : Type := openai.Client * Generator.

Record Server := {
  world : World;
  open_streams : list OpenStream
}.

Inductive Action : Type :=
| PostInference (client : openai.Client) (body : models.Body) (d : Decision)
| PostInferenceStream (client : openai.Client) (body : models.Body)
    (d : Decision)
| Pull (i : nat)
| GetMetrics.

(** The list with its [i]-th element replaced. *)
Fixpoint replace_at {A} (i : nat) (x : A) (l : list A) : list A :=
  match l, i with
  | [], _ => []
  | _ :: rest, O => x :: rest
  | y :: rest, S j => y :: replace_at j x rest
  end.

(** One action of the server.  [Pull i] sends the next event of the
    [i]-th stream opened; pulling a stream that has ended does nothing. *)
Definition step (settings : config.Settings) (s : Server) (a : Action)
  : Server :=
  match a with
  | PostInference client body d =>
      {| world := snd (post_v1_inference settings client body d (world s));
         open_streams := open_streams s |}
  | PostInferenceStream client body d =>
      match models.validate body with
      | None => s
      | Some inference_request =>
          match limiter_limit d (generate_inference_stream inference_request)
                  (world s)
          with
          | (Return r, w') =>
              {| world := w';
                 open_streams :=
                   open_streams s ++ [(client, body_iterator r)] |}
          | (Raise _, w') => {| world := w'; open_streams := open_streams s |}
          end
      end
  | Pull i =>
      match nth_error (open_streams s) i with
      | Some (client, g) =>
          match anext settings client g (world s) with
          | (Return (_, g'), w') =>
              {| world := w';
                 open_streams := replace_at i (client, g') (open_streams s) |}
          | (Raise _, w') =>
              {| world := w';
                 open_streams :=
                   replace_at i (client, Closed) (open_streams s) |}
          end
      | None => s
      end
  | GetMetrics => s
  end.

Definition run (settings : config.Settings) (actions : list Action)
    (s : Server) : Server :=
  fold_left (step settings) actions s.

(** The server at start: the counters at zero, no stream open. *)
Definition started_server : Server :=
  {| world := fresh_world; open_streams := [] |}.

(** What a generator may still add to a counter: one while its body has
    not reached an [except] clause or its end. *)
Definition pending (g : Generator) : Z :=
  match g with
  | Created _ | InLoop _ _ | AtDone => 1
  | AtError | Closed => 0
  end.

Fixpoint pending_all (streams : list OpenStream) : Z :=
  match streams with
  | [] => 0
  | (_, g) :: rest => pending g + pending_all rest
  end.

(** The counters of a server make sense: none is negative, and every
    request counted as a success or as a failure, or still to be counted
    by an open stream, has been counted in [total_requests]. *)
Definition counters_consistent (s : Server) : Prop :=
  0 <= successful_requests (metrics (world s)) /\
  0 <= failed_requests (metrics (world s)) /\
  successful_requests (metrics (world s)) + pending_all (open_streams s)
    <= total_requests (metrics (world s)) /\
  failed_requests (metrics (world s)) + pending_all (open_streams s)
    <= total_requests (metrics (world s)).

(** A body that gives the messages and leaves every other field to
    [fill]: left out, or [null]. *)
Definition messages_only (fill : forall A, models.field A)
    (ms : list models.ChatMessage) : models.Body :=
  {| models.body_messages := models.Given ms;
     models.body_max_tokens := fill Z;
     models.body_temperature := fill float;
     models.body_stream := fill bool |}.

(** The sample completion without any choice. *)
Definition choiceless_completion : openai.ChatCompletion :=
  {| openai.id := openai.id hello_completion;
     openai.choices := [];
     openai.model := openai.model hello_completion;
     openai.usage := openai.usage hello_completion |}.

(** A stream whose second fragment reads like the end-of-stream marker. *)
Definition marker_stream : openai.Stream :=
  {| openai.chunks := [text_chunk "Hel"; text_chunk "[DONE]"; text_chunk "lo"];
     openai.failure := None |}.

(** The sample body without its messages. *)
Definition messageless_body : models.Body :=
  {| models.body_messages := models.Absent;
     models.body_max_tokens := models.body_max_tokens hi_body;
     models.body_temperature := models.body_temperature hi_body;
     models.body_stream := models.body_stream hi_body |}.


(** The sample completion with a usage record that reports a negative
    total. *)
Definition negative_usage_completion : openai.ChatCompletion :=
  {| openai.id := openai.id hello_completion;
     openai.choices := openai.choices hello_completion;
     openai.model := openai.model hello_completion;
     openai.usage :=
       Some {| openai.prompt_tokens := 0;
               openai.completion_tokens := 0;
               openai.total_tokens := -5 |} |}.

(** * Properties *)

Section properties.

Variable settings : config.Settings.
Variable client : openai.Client.

Lemma except_stream_run (e : exn) (w : World) :
  except_stream e w =
    (Return (Some (sse (Error (error_description e))), AtError),
     counted Kfailed_requests 1 w).
Proof. destruct e; reflexivity. Qed.

Lemma for_chunk_in_skip chunk rest failure :
  nonempty (fragment_text chunk) = false ->
  for_chunk_in (chunk :: rest) failure = for_chunk_in rest failure.
Proof.
  unfold fragment_text; simpl.
  destruct (openai.chunk_choices chunk) as [|choice ?]; [reflexivity|].
  destruct (openai.delta_content (openai.delta choice)) as [[|a s]|];
    simpl; intros H; try reflexivity; discriminate.
Qed.

Lemma for_chunk_in_yield chunk rest failure :
  nonempty (fragment_text chunk) = true ->
  for_chunk_in (chunk :: rest) failure =
    ret (Some (sse (Token (fragment_text chunk))), InLoop rest failure).
Proof.
  unfold fragment_text; simpl.
  destruct (openai.chunk_choices chunk) as [|choice ?]; [discriminate|].
  destruct (openai.delta_content (openai.delta choice)) as [[|a s]|];
    simpl; intros H; try reflexivity; discriminate.
Qed.

(** Pulling on a generator suspended in the loop, long enough, sends the
    remaining content events and one terminal event, and closes it. *)
Lemma send_body_InLoop chunks : forall failure n w,
  (length chunks + 2 <= n)%nat ->
  send_body settings client n (InLoop chunks failure) w =
    (map sse (relayed chunks ++ [terminal failure]),
     Return Closed,
     counted (outcome_key failure) 1 w).
Proof.
  induction chunks as [|chunk rest IH]; intros failure n w Hn.
  - destruct n as [|[|n]]; try (simpl in Hn; lia).
    destruct failure as [e|].
    + cbn [send_body anext for_chunk_in]. unfold try_except, raise.
      rewrite except_stream_run. reflexivity.
    + reflexivity.
  - destruct n as [|n]; [simpl in Hn; lia|].
    destruct (nonempty (fragment_text chunk)) eqn:Hc.
    + cbn [send_body anext]. rewrite (for_chunk_in_yield _ _ _ Hc).
      unfold try_except, ret.
      rewrite (IH failure n w) by (simpl in Hn; lia).
      unfold relayed; simpl. rewrite Hc. reflexivity.
    + specialize (IH failure (S n) w).
      cbn [send_body anext] in IH |- *.
      rewrite (for_chunk_in_skip _ _ _ Hc).
      rewrite IH by (simpl in Hn; lia).
      unfold relayed; simpl. rewrite Hc. reflexivity.
Qed.

Lemma anext_Created inference_request chunks failure w :
  received (openai.create_stream client
              (create_args settings inference_request true))
    = (chunks, failure) ->
  anext settings client (Created inference_request) w =
    anext settings client (InLoop chunks failure)
      (called (create_args settings inference_request true) w).
Proof.
  unfold anext, try_except, bind, chat_completions_create_stream, received.
  fold (called (create_args settings inference_request true) w).
  destruct (openai.create_stream client _) as [e|stream];
    intros H; injection H as <- <-; reflexivity.
Qed.

Lemma send_body_Created inference_request chunks failure n w :
  received (openai.create_stream client
              (create_args settings inference_request true))
    = (chunks, failure) ->
  send_body settings client (S n) (Created inference_request) w =
    send_body settings client (S n) (InLoop chunks failure)
      (called (create_args settings inference_request true) w).
Proof.
  intros H. cbn [send_body]. rewrite (anext_Created _ _ _ _ H). reflexivity.
Qed.

(** The whole relay, pulled to its end. *)
Lemma send_body_stream inference_request chunks failure pulls w :
  received (openai.create_stream client
              (create_args settings inference_request true))
    = (chunks, failure) ->
  (length chunks + 2 <= pulls)%nat ->
  send_body settings client pulls (stream_openai_response inference_request) w
    = (map sse (relayed chunks ++ [terminal failure]),
       Return Closed,
       counted (outcome_key failure) 1
         (called (create_args settings inference_request true) w)).
Proof.
  intros H Hn. destruct pulls as [|n]; [lia|].
  unfold stream_openai_response.
  rewrite (send_body_Created _ _ _ _ _ H).
  apply send_body_InLoop. exact Hn.
Qed.

(** A generator that has run to its end yields nothing more. *)
Lemma send_body_Closed n w :
  send_body settings client n Closed w = ([], Return Closed, w).
Proof. destruct n; reflexivity. Qed.

Lemma send_body_AtError n w :
  fst (fst (send_body settings client n AtError w)) = [].
Proof. destruct n; reflexivity. Qed.

Lemma send_body_AtDone n w :
  fst (fst (send_body settings client n AtDone w)) = [].
Proof. destruct n; reflexivity. Qed.

(** The events sent by any number of pulls are the first so many of
    the content events followed by the terminal event. *)
Lemma send_body_InLoop_events chunks : forall failure n w,
  fst (fst (send_body settings client n (InLoop chunks failure) w)) =
    firstn n (map sse (relayed chunks ++ [terminal failure])).
Proof.
  induction chunks as [|chunk rest IH]; intros failure n w.
  - destruct n as [|n]; [reflexivity|].
    destruct failure as [e|].
    + cbn [send_body anext for_chunk_in]. unfold try_except, raise.
      rewrite except_stream_run.
      destruct (send_body settings client n AtError _) as [[evs r] w'] eqn:E.
      pose proof (send_body_AtError n (counted Kfailed_requests 1 w)) as H.
      rewrite E in H. simpl in H. subst evs.
      simpl. destruct n; reflexivity.
    + cbn [send_body anext for_chunk_in]. unfold try_except, ret.
      destruct (send_body settings client n AtDone _) as [[evs r] w'] eqn:E.
      pose proof (send_body_AtDone n w) as H.
      rewrite E in H. simpl in H. subst evs.
      simpl. destruct n; reflexivity.
  - destruct n as [|n]; [reflexivity|].
    destruct (nonempty (fragment_text chunk)) eqn:Hc.
    + cbn [send_body anext]. rewrite (for_chunk_in_yield _ _ _ Hc).
      unfold try_except, ret.
      specialize (IH failure n w).
      destruct (send_body settings client n (InLoop rest failure) w)
        as [[evs r] w'].
      simpl in IH. subst evs.
      unfold relayed; simpl. rewrite Hc. reflexivity.
    + specialize (IH failure (S n) w).
      cbn [send_body anext] in IH |- *.
      rewrite (for_chunk_in_skip _ _ _ Hc).
      rewrite IH.
      unfold relayed; simpl. rewrite Hc. reflexivity.
Qed.

Lemma send_body_stream_events inference_request chunks failure pulls w :
  received (openai.create_stream client
              (create_args settings inference_request true))
    = (chunks, failure) ->
  fst (fst (send_body settings client pulls
              (stream_openai_response inference_request) w)) =
    firstn pulls (map sse (relayed chunks ++ [terminal failure])).
Proof.
  intros H. destruct pulls as [|n]; [reflexivity|].
  unfold stream_openai_response.
  rewrite (send_body_Created _ _ _ _ _ H).
  apply send_body_InLoop_events.
Qed.

(** Running the loop leaves the world alone and never hands back an
    unstarted generator. *)
Lemma for_chunk_in_world chunks : forall failure w,
  snd (for_chunk_in chunks failure w) = w /\
  match fst (for_chunk_in chunks failure w) with
  | Return (_, g) => started g = true
  | Raise _ => True
  end.
Proof.
  induction chunks as [|chunk rest IH]; intros failure w.
  - destruct failure; simpl; auto.
  - destruct (nonempty (fragment_text chunk)) eqn:Hc.
    + rewrite (for_chunk_in_yield _ _ _ Hc). simpl; auto.
    + rewrite (for_chunk_in_skip _ _ _ Hc). apply IH.
Qed.

(** Resuming a started generator makes no call on the provider, leaves
    [total_requests] alone, and does not raise. *)
Lemma anext_started g w :
  started g = true ->
  exists ev g' w',
    anext settings client g w = (Return (ev, g'), w') /\
    started g' = true /\
    upstream_calls w' = upstream_calls w /\
    total_requests (metrics w') = total_requests (metrics w).
Proof.
  destruct g as [r|rest failure| | |]; intros Hg; try discriminate.
  - unfold anext, try_except.
    destruct (for_chunk_in_world rest failure w) as [Hw Hr].
    destruct (for_chunk_in rest failure w) as [[[ev g']|e] w'];
      simpl in Hw, Hr; subst w'.
    + exists ev, g', w. auto.
    + rewrite except_stream_run. do 3 eexists. split; [reflexivity|].
      simpl; auto.
  - do 3 eexists. split; [reflexivity|]. simpl; auto.
  - do 3 eexists. split; [reflexivity|]. simpl; auto.
  - do 3 eexists. split; [reflexivity|]. simpl; auto.
Qed.

Lemma send_body_started n : forall g w,
  started g = true ->
  upstream_calls (snd (send_body settings client n g w)) = upstream_calls w /\
  total_requests (metrics (snd (send_body settings client n g w)))
    = total_requests (metrics w).
Proof.
  induction n as [|n IH]; intros g w Hg; [simpl; auto|].
  destruct (anext_started g w Hg) as (ev & g' & w' & E & Hg' & Hc & Ht).
  cbn [send_body]. rewrite E.
  destruct ev as [event|]; [|simpl; auto].
  specialize (IH g' w' Hg').
  destruct (send_body settings client n g' w') as [[evs r] w''].
  simpl in IH |- *. destruct IH as [-> ->]. auto.
Qed.

(** However far the relay is pulled, it calls the provider at most once
    and never touches [total_requests]. *)
Lemma send_body_stream_world inference_request n w :
  let w' := snd (send_body settings client (S n)
                   (stream_openai_response inference_request) w) in
  upstream_calls w' =
    (upstream_calls w ++ [create_args settings inference_request true])%list /\
  total_requests (metrics w') = total_requests (metrics w).
Proof.
  destruct (received (openai.create_stream client
                        (create_args settings inference_request true)))
    as [chunks failure] eqn:H.
  unfold stream_openai_response. cbv zeta.
  rewrite (send_body_Created _ _ _ _ _ H).
  destruct (send_body_started (S n) (InLoop chunks failure)
              (called (create_args settings inference_request true) w)
              eq_refl) as [-> ->].
  split; reflexivity.
Qed.

(** The blocking handler bumps [total_requests] once, whatever happens
    next. *)
Lemma generate_inference_total inference_request w :
  total_requests
    (metrics (snd (generate_inference settings client inference_request w)))
    = total_requests (metrics w) + 1.
Proof.
  unfold generate_inference, bind, iadd, try_except, chat_completions_create.
  destruct (truthy_bool _); [reflexivity|].
  destruct (openai.create client _) as [e|response].
  - destruct e; reflexivity.
  - unfold getitem0, getattr_usage, InferenceResponse.
    destruct (openai.choices response) as [|completion ?]; [reflexivity|].
    destruct (openai.usage response) as [u|]; [|reflexivity].
    cbn.
    destruct (openai.content (openai.message completion)); reflexivity.
Qed.

(** A failed upstream call in blocking mode: the failure is counted and
    reported as an [HTTPException]. *)
Lemma generate_inference_upstream_failure inference_request e w :
  truthy_bool (models.stream inference_request) = false ->
  openai.create client (create_args settings inference_request false) = inl e ->
  generate_inference settings client inference_request w =
    (Raise (HTTPException (blocking_status e) (blocking_detail e)),
     counted Kfailed_requests 1
       (called (create_args settings inference_request false)
          (counted Ktotal_requests 1 w))).
Proof.
  intros Hs Hc.
  unfold generate_inference, bind, iadd, try_except, chat_completions_create.
  rewrite Hs. cbn. rewrite Hc. destruct e; reflexivity.
Qed.

(** C1 (amended): for every valid request that the rate limiter admits,
    on the blocking and on the streaming endpoint, [total_requests] grows
    by exactly one whatever the provider does and however far the stream
    is consumed; a request that the rate limiter rejects is answered with
    status 429 before the handler runs and changes no counter at all, not
    even [total_requests]. *)
Theorem total_requests_counted_after_admission
    body inference_request pulls limit w :
  models.validate body = Some inference_request ->
  total_requests
    (metrics (snd (post_v1_inference settings client body Admit w)))
    = total_requests (metrics w) + 1 /\
  total_requests
    (metrics (snd (post_v1_inference_stream settings client body Admit pulls w)))
    = total_requests (metrics w) + 1 /\
  post_v1_inference settings client body (Reject limit) w =
    ({| status_code := 429;
        content := JSONError ("Rate limit exceeded: " ++ limit) |}, w) /\
  post_v1_inference_stream settings client body (Reject limit) pulls w =
    ({| status_code := 429;
        content := JSONError ("Rate limit exceeded: " ++ limit) |}, w).
Proof.
  intros Hv. unfold post_v1_inference, post_v1_inference_stream.
  rewrite Hv. repeat split.
  - unfold limiter_limit.
    pose proof (generate_inference_total inference_request w) as H.
    destruct (generate_inference settings client inference_request w)
      as [[r|e] w']; exact H.
  - unfold limiter_limit, generate_inference_stream, bind, iadd, ret.
    cbn [body_iterator].
    destruct pulls as [|n]; [reflexivity|].
    pose proof (send_body_stream_world inference_request n
                  (counted Ktotal_requests 1 w)) as [_ H].
    unfold counted in H.
    destruct (send_body settings client (S n) _ _) as [[evs r] w'].
    exact H.
Qed.

(** C2: when the provider answers a blocking request with a completion
    that has a first choice with text content and a usage record, the
    caller gets status 200 and an [InferenceResponse] carrying the
    provider's id, model and finish reason unchanged; [total_requests]
    and [successful_requests] grow by one, [total_tokens] grows by the
    reported [usage.total_tokens], and [failed_requests] stays. *)
Theorem blocking_success_preserves_upstream_result
    body inference_request response completion others text u w :
  models.validate body = Some inference_request ->
  truthy_bool (models.stream inference_request) = false ->
  openai.create client (create_args settings inference_request false)
    = inr response ->
  openai.choices response = completion :: others ->
  openai.content (openai.message completion) = Some text ->
  openai.usage response = Some u ->
  post_v1_inference settings client body Admit w =
    ({| status_code := 200;
        content :=
          JSONInference
            {| models.id := openai.id response;
               models.model := openai.model response;
               models.response_content := text;
               models.finish_reason := openai.finish_reason completion;
               models.usage :=
                 [("prompt_tokens", openai.prompt_tokens u);
                  ("completion_tokens", openai.completion_tokens u);
                  ("total_tokens", openai.total_tokens u)] |} |},
     {| metrics :=
          {| total_requests := total_requests (metrics w) + 1;
             successful_requests := successful_requests (metrics w) + 1;
             failed_requests := failed_requests (metrics w);
             total_tokens :=
               total_tokens (metrics w) + openai.total_tokens u |};
        upstream_calls :=
          (upstream_calls w ++ [create_args settings inference_request false])
            %list |}).
Proof.
  intros Hv Hs Hc Hch Hco Hu.
  unfold post_v1_inference. rewrite Hv.
  unfold limiter_limit, generate_inference, bind, iadd, try_except,
    chat_completions_create.
  rewrite Hs. cbn. rewrite Hc, Hch. cbn.
  unfold getattr_usage. rewrite Hu. cbn. rewrite Hco. reflexivity.
Qed.

(** C3 (amended): when the provider fails a blocking request with its
    rate-limit error, the caller gets status 429 with the detail
    "Rate limit exceeded at OpenAI", and [failed_requests] grows by one;
    429 is also the status of a rejection by the local rate limiter, so
    the two are told apart by their bodies only. *)
Theorem upstream_rate_limit_reported_as_429
    body inference_request message limit w :
  models.validate body = Some inference_request ->
  truthy_bool (models.stream inference_request) = false ->
  openai.create client (create_args settings inference_request false)
    = inl (RateLimitError message) ->
  post_v1_inference settings client body Admit w =
    ({| status_code := 429;
        content := JSONDetail "Rate limit exceeded at OpenAI" |},
     {| metrics :=
          {| total_requests := total_requests (metrics w) + 1;
             successful_requests := successful_requests (metrics w);
             failed_requests := failed_requests (metrics w) + 1;
             total_tokens := total_tokens (metrics w) |};
        upstream_calls :=
          (upstream_calls w ++ [create_args settings inference_request false])
            %list |}) /\
  status_code (fst (post_v1_inference settings client body (Reject limit) w))
    = 429.
Proof.
  intros Hv Hs Hc. unfold post_v1_inference. rewrite Hv.
  unfold limiter_limit.
  rewrite (generate_inference_upstream_failure _ _ _ Hs Hc).
  split; reflexivity.
Qed.

(** C8: a valid request with [stream] set to true that reaches the
    blocking handler is answered with status 400 and the detail that
    points to the streaming endpoint; the provider is not called, and
    neither [successful_requests] nor [failed_requests] changes (only
    [total_requests] is counted). *)
Theorem stream_flag_on_blocking_endpoint_refused body inference_request w :
  models.validate body = Some inference_request ->
  models.stream inference_request = Some true ->
  post_v1_inference settings client body Admit w =
    ({| status_code := 400;
        content :=
          JSONDetail "For streaming responses, use POST /v1/inference/stream" |},
     {| metrics :=
          {| total_requests := total_requests (metrics w) + 1;
             successful_requests := successful_requests (metrics w);
             failed_requests := failed_requests (metrics w);
             total_tokens := total_tokens (metrics w) |};
        upstream_calls := upstream_calls w |}).
Proof.
  intros Hv Hs. unfold post_v1_inference. rewrite Hv.
  unfold limiter_limit, generate_inference, bind, iadd.
  rewrite Hs. reflexivity.
Qed.



(** C5: when a streaming sequence fails with an upstream error, at the
    opening call or after any number of fragments, and the caller reads
    the response to its end, the relay sends the content events of the
    fragments received, then exactly one error event, and ends without
    raising; later pulls send nothing; [failed_requests] grows by one
    and no other counter changes. *)
Theorem stream_failure_ends_with_one_error_event
    inference_request chunks e pulls w :
  received (openai.create_stream client
              (create_args settings inference_request true))
    = (chunks, Some e) ->
  (length chunks + 2 <= pulls)%nat ->
  send_body settings client pulls (stream_openai_response inference_request) w
    = (map sse (relayed chunks ++ [Error (error_description e)]),
       Return Closed,
       {| metrics :=
            {| total_requests := total_requests (metrics w);
               successful_requests := successful_requests (metrics w);
               failed_requests := failed_requests (metrics w) + 1;
               total_tokens := total_tokens (metrics w) |};
          upstream_calls :=
            (upstream_calls w ++ [create_args settings inference_request true])
              %list |}) /\
  (forall more w', send_body settings client more Closed w'
                   = ([], Return Closed, w')).
Proof.
  intros H Hn. split.
  - rewrite (send_body_stream _ _ _ _ _ H Hn). reflexivity.
  - intros more w'. apply send_body_Closed.
Qed.

(** C6: when a streaming sequence completes naturally, also with no
    fragment or with none that has text, and the caller reads the
    response to its end, the relay sends the content events of the
    fragments, then exactly one done event as the last event;
    [successful_requests] grows by one and no other counter changes. *)
Theorem stream_completion_ends_with_one_done_event
    inference_request chunks pulls w :
  received (openai.create_stream client
              (create_args settings inference_request true))
    = (chunks, None) ->
  (length chunks + 2 <= pulls)%nat ->
  send_body settings client pulls (stream_openai_response inference_request) w
    = (map sse (relayed chunks ++ [Done]),
       Return Closed,
       {| metrics :=
            {| total_requests := total_requests (metrics w);
               successful_requests := successful_requests (metrics w) + 1;
               failed_requests := failed_requests (metrics w);
               total_tokens := total_tokens (metrics w) |};
          upstream_calls :=
            (upstream_calls w ++ [create_args settings inference_request true])
              %list |}) /\
  (relayed chunks = [] ->
   fst (fst (send_body settings client pulls
               (stream_openai_response inference_request) w)) = [sse Done]).
Proof.
  intros H Hn.
  rewrite (send_body_stream _ _ _ _ _ H Hn). split; [reflexivity|].
  intros ->. reflexivity.
Qed.

Lemma length_append (s t : string) :
  String.length (s ++ t) = (String.length s + String.length t)%nat.
Proof. induction s as [|a s IH]; simpl; [reflexivity|]. rewrite IH. reflexivity. Qed.

Lemma append_cancel_r (t : string) : forall s s' : string,
  s ++ t = s' ++ t -> s = s'.
Proof.
  intros s s' H.
  assert (Hl : String.length s = String.length s').
  { apply (f_equal String.length) in H. rewrite !length_append in H. lia. }
  revert s' H Hl.
  induction s as [|a s IH]; intros [|a' s'] H Hl; simpl in *;
    try discriminate; [reflexivity|].
  injection H as <- H. f_equal. apply IH; [exact H | lia].
Qed.

Lemma sse_Token_inj text text' :
  sse (Token text) = sse (Token text') -> text = text'.
Proof.
  simpl. intros H. injection H as H.
  apply (append_cancel_r (LF ++ LF)). exact H.
Qed.

(** C7: however many events the caller reads, what it has been sent is
    the first so many of: one event per upstream fragment with non-empty
    text, in the order received and none for a fragment with empty text,
    followed by the terminal event.  A content event is ["data: "], the
    fragment's text unchanged, and two line feeds, so the text can be
    read back from it. *)
Theorem relay_forwards_nonempty_fragments_in_order
    inference_request chunks failure pulls w :
  received (openai.create_stream client
              (create_args settings inference_request true))
    = (chunks, failure) ->
  fst (fst (send_body settings client pulls
              (stream_openai_response inference_request) w)) =
    firstn pulls
      (List.app
         (map (fun text => "data: " ++ text ++ LF ++ LF)
              (filter nonempty (map fragment_text chunks)))
         [sse (terminal failure)]) /\
  (forall text text',
     "data: " ++ text ++ LF ++ LF = "data: " ++ text' ++ LF ++ LF ->
     text = text').
Proof.
  intros H. split.
  - rewrite (send_body_stream_events _ _ _ _ _ H).
    unfold relayed. rewrite map_app, map_map. reflexivity.
  - intros text text'. apply sse_Token_inj.
Qed.

Lemma In_firstn {A} (x : A) n l : In x (firstn n l) -> In x l.
Proof.
  intros H. rewrite <- (firstn_skipn n l). apply in_or_app. left. exact H.
Qed.

(** C9 (amended): every answer of either endpoint is accounted for, and
    the text of a failure shown to the caller is fixed by the kind of
    failure, except for an upstream API error, where it is
    "LLM service error: " followed by [str(e)] of the provider's
    exception, unchanged.  The blocking endpoint answers 200 with the
    response, 422 with the validation errors, 429 with the limiter's
    message naming the limit, or a status with one of the handler's
    three fixed details; or 502 with that prefix and the provider's
    text.  The streaming endpoint answers 422 or 429 likewise, or 200
    with one event per fragment with text and then one terminal event
    that the relay adds: the done event, or an error event whose
    description is one of two fixed messages, or that prefix and the
    provider's text. *)
Theorem caller_visible_failure_text body d pulls w :
  (let answer := fst (post_v1_inference settings client body d w) in
   (exists r, answer = {| status_code := 200; content := JSONInference r |}) \/
   answer = {| status_code := 422; content := JSONValidationErrors |} \/
   (exists limit,
      d = Reject limit /\
      answer = {| status_code := 429;
                  content := JSONError ("Rate limit exceeded: " ++ limit) |})
   \/
   answer =
     {| status_code := 400;
        content :=
          JSONDetail "For streaming responses, use POST /v1/inference/stream" |}
   \/
   answer = {| status_code := 429;
               content := JSONDetail "Rate limit exceeded at OpenAI" |} \/
   answer = {| status_code := 500;
               content := JSONDetail "Internal server error" |} \/
   exists inference_request message,
     models.validate body = Some inference_request /\
     openai.create client (create_args settings inference_request false)
       = inl (APIError message) /\
     answer = {| status_code := 502;
                 content := JSONDetail ("LLM service error: " ++ message) |})
  /\
  (let answer := fst (post_v1_inference_stream settings client body d pulls w)
   in
   answer = {| status_code := 422; content := JSONValidationErrors |} \/
   (exists limit,
      d = Reject limit /\
      answer = {| status_code := 429;
                  content := JSONError ("Rate limit exceeded: " ++ limit) |})
   \/
   exists inference_request last,
     models.validate body = Some inference_request /\
     let sequence :=
       received (openai.create_stream client
                   (create_args settings inference_request true)) in
     answer =
       {| status_code := 200;
          content :=
            EventStream
              (firstn pulls
                 (map sse
                    (map Token
                       (filter nonempty (map fragment_text (fst sequence)))
                     ++ [last]))) |} /\
     ((snd sequence = None /\ last = Done) \/
      exists e,
        snd sequence = Some e /\
        (last = Error "Rate limit exceeded" \/
         last = Error "Internal server error" \/
         exists message,
           e = APIError message /\
           last = Error ("LLM service error: " ++ message)))).
Proof.
  split; cbv zeta.
  - unfold post_v1_inference.
    destruct (models.validate body) as [inference_request|] eqn:Hv;
      [|right; left; reflexivity].
    destruct d as [|limit]; [|right; right; left; eauto].
    unfold limiter_limit, generate_inference, bind, iadd, try_except,
      chat_completions_create.
    destruct (truthy_bool _); [do 3 right; left; reflexivity|].
    destruct (openai.create client _) as [x|response] eqn:Hc.
    { destruct x; cbn.
      - do 4 right. left. reflexivity.
      - do 6 right. eauto.
      - do 5 right. left. reflexivity.
      - do 5 right. left. reflexivity.
      - do 5 right. left. reflexivity. }
    unfold getitem0, getattr_usage, InferenceResponse.
    destruct (openai.choices response) as [|completion ?];
      [do 5 right; left; reflexivity|].
    destruct (openai.usage response) as [u|];
      [|do 5 right; left; reflexivity].
    cbn. destruct (openai.content (openai.message completion)); cbn.
    + left. eauto.
    + do 5 right. left. reflexivity.
  - unfold post_v1_inference_stream.
    destruct (models.validate body) as [inference_request|] eqn:Hv;
      [|left; reflexivity].
    destruct d as [|limit]; [|right; left; eauto].
    right. right.
    unfold limiter_limit, generate_inference_stream, bind, iadd, ret.
    cbn [body_iterator].
    destruct (received (openai.create_stream client
                          (create_args settings inference_request true)))
      as [chunks failure] eqn:H.
    exists inference_request, (terminal failure).
    split; [reflexivity|]. rewrite H. cbn [fst snd]. split.
    + pose proof (send_body_stream_events inference_request chunks failure
                    pulls (counted Ktotal_requests 1 w) H) as E.
      unfold counted in E.
      destruct (send_body settings client pulls _ _) as [[evs r] w'].
      simpl in E. subst evs. reflexivity.
    + destruct failure as [e|]; [|left; auto].
      right. exists e. split; [reflexivity|].
      destruct e; simpl; eauto.
Qed.

(** C10: the streaming endpoint does not look at the request's [stream]
    flag.  For every valid request that the rate limiter admits, whatever
    the flag, the one call made on the provider has [stream=True], the
    response has status 200 and carries the relayed event sequence as far
    as the caller reads it, and the same body with any other flag gives
    the same response and the same world. *)
Theorem streaming_endpoint_ignores_stream_flag
    body inference_request flag pulls w :
  models.validate body = Some inference_request ->
  (0 < pulls)%nat ->
  openai.arg_stream (create_args settings inference_request true) = true /\
  upstream_calls
    (snd (post_v1_inference_stream settings client body Admit pulls w))
    = (upstream_calls w ++ [create_args settings inference_request true])%list
  /\
  fst (post_v1_inference_stream settings client body Admit pulls w) =
    {| status_code := 200;
       content :=
         EventStream
           (firstn pulls
              (map sse
                 (relayed
                    (fst (received
                            (openai.create_stream client
                               (create_args settings inference_request true))))
                  ++ [terminal
                        (snd (received
                                (openai.create_stream client
                                   (create_args settings inference_request
                                      true))))]))) |} /\
  post_v1_inference_stream settings client (with_stream flag body) Admit pulls w
    = post_v1_inference_stream settings client body Admit pulls w.
Proof.
  intros Hv Hp. split; [reflexivity|].
  destruct pulls as [|n]; [lia|].
  split; [|split].
  - unfold post_v1_inference_stream. rewrite Hv.
    unfold limiter_limit, generate_inference_stream, bind, iadd, ret.
    cbn [body_iterator].
    pose proof (send_body_stream_world inference_request n
                  (counted Ktotal_requests 1 w)) as [H _].
    unfold counted in H.
    destruct (send_body settings client (S n) _ _) as [[evs r] w'].
    exact H.
  - unfold post_v1_inference_stream. rewrite Hv.
    unfold limiter_limit, generate_inference_stream, bind, iadd, ret.
    cbn [body_iterator].
    destruct (received (openai.create_stream client
                          (create_args settings inference_request true)))
      as [chunks failure] eqn:H.
    pose proof (send_body_stream_events inference_request chunks failure
                  (S n) (counted Ktotal_requests 1 w) H) as E.
    unfold counted in E.
    destruct (send_body settings client (S n) _ _) as [[evs r] w'].
    simpl in E. subst evs. reflexivity.
  - unfold post_v1_inference_stream, models.validate, with_stream.
    cbn [models.body_messages models.body_temperature models.body_max_tokens
         models.body_stream].
    destruct (models.body_messages body); try reflexivity.
    destruct (models.temperature_ok _); reflexivity.
Qed.

End properties.

(** The done event is sent before the success is counted: a caller that
    reads exactly the events of a completed stream leaves the generator
    suspended at its last [yield], with the counters as they were. *)
Lemma send_body_up_to_done settings client chunks : forall w,
  send_body settings client (length (relayed chunks) + 1)
    (InLoop chunks None) w
    = (map sse (relayed chunks ++ [Done]), Return AtDone, w).
Proof.
  induction chunks as [|chunk rest IH]; intros w; [reflexivity|].
  destruct (nonempty (fragment_text chunk)) eqn:Hc.
  - replace (relayed (chunk :: rest))
      with (Token (fragment_text chunk) :: relayed rest)
      by (unfold relayed; simpl; rewrite Hc; reflexivity).
    cbn [length Nat.add send_body anext].
    rewrite (for_chunk_in_yield _ _ _ Hc). unfold try_except, ret.
    rewrite IH. reflexivity.
  - replace (relayed (chunk :: rest)) with (relayed rest)
      by (unfold relayed; simpl; rewrite Hc; reflexivity).
    specialize (IH w).
    rewrite Nat.add_1_r in IH |- *.
    cbn [send_body anext] in IH |- *.
    rewrite (for_chunk_in_skip _ _ _ Hc). exact IH.
Qed.

(** * Concrete runs *)

(** C1, at the sample request: admitted, it is counted once on either
    endpoint; rejected, the world stays as it was. *)
Lemma total_requests_counted_after_admission_witness :
  total_requests
    (metrics (snd (post_v1_inference sample_settings
                     (mock_client (inr hello_completion)
                        (inr (hello_stream None)))
                     hi_body Admit fresh_world))) = 0 + 1 /\
  total_requests
    (metrics (snd (post_v1_inference_stream sample_settings
                     (mock_client (inr hello_completion)
                        (inr (hello_stream None)))
                     hi_body Admit 10 fresh_world))) = 0 + 1 /\
  post_v1_inference sample_settings
    (mock_client (inr hello_completion) (inr (hello_stream None)))
    hi_body (Reject "10 per 1 minute") fresh_world =
    ({| status_code := 429;
        content := JSONError ("Rate limit exceeded: " ++ "10 per 1 minute") |},
     fresh_world) /\
  post_v1_inference_stream sample_settings
    (mock_client (inr hello_completion) (inr (hello_stream None)))
    hi_body (Reject "10 per 1 minute") 10 fresh_world =
    ({| status_code := 429;
        content := JSONError ("Rate limit exceeded: " ++ "10 per 1 minute") |},
     fresh_world).
Proof.
  apply (total_requests_counted_after_admission sample_settings
           (mock_client (inr hello_completion) (inr (hello_stream None)))
           hi_body hi_request 10 "10 per 1 minute" fresh_world).
  reflexivity.
Defined.

(** C1 as stated fails: a request that the rate limiter rejects leaves
    [total_requests] at its old value on both endpoints. *)
Lemma rejected_request_is_not_counted :
  total_requests
    (metrics (snd (post_v1_inference sample_settings
                     (mock_client (inr hello_completion)
                        (inr (hello_stream None)))
                     hi_body (Reject "10 per 1 minute") fresh_world))) = 0 /\
  total_requests
    (metrics (snd (post_v1_inference_stream sample_settings
                     (mock_client (inr hello_completion)
                        (inr (hello_stream None)))
                     hi_body (Reject "10 per 1 minute") 10 fresh_world))) = 0 /\
  total_requests (metrics fresh_world) + 1 = 1.
Proof. repeat split. Qed.

(** C2, at the sample exchange: the response carries "x1", "m" and
    "stop", and [total_tokens] grows by 4. *)
Lemma blocking_success_preserves_upstream_result_witness :
  post_v1_inference sample_settings
    (mock_client (inr hello_completion) (inr (hello_stream None)))
    hi_body Admit fresh_world =
    ({| status_code := 200;
        content :=
          JSONInference
            {| models.id := "x1";
               models.model := "m";
               models.response_content := "hello";
               models.finish_reason := "stop";
               models.usage :=
                 [("prompt_tokens", 3); ("completion_tokens", 1);
                  ("total_tokens", 4)] |} |},
     {| metrics := {| total_requests := 0 + 1;
                      successful_requests := 0 + 1;
                      failed_requests := 0;
                      total_tokens := 0 + 4 |};
        upstream_calls := [create_args sample_settings hi_request false] |}).
Proof.
  apply (blocking_success_preserves_upstream_result sample_settings
           (mock_client (inr hello_completion) (inr (hello_stream None)))
           hi_body hi_request hello_completion
           {| openai.finish_reason := "stop";
              openai.message := {| openai.content := Some "hello" |} |}
           [] "hello"
           {| openai.prompt_tokens := 3;
              openai.completion_tokens := 1;
              openai.total_tokens := 4 |}
           fresh_world); reflexivity.
Defined.

(** C3, at a provider that throttles the sample request. *)
Lemma upstream_rate_limit_reported_as_429_witness :
  post_v1_inference sample_settings
    (mock_client (inl (RateLimitError "Error code: 429"))
       (inr (hello_stream None)))
    hi_body Admit fresh_world =
    ({| status_code := 429;
        content := JSONDetail "Rate limit exceeded at OpenAI" |},
     {| metrics := {| total_requests := 0 + 1;
                      successful_requests := 0;
                      failed_requests := 0 + 1;
                      total_tokens := 0 |};
        upstream_calls := [create_args sample_settings hi_request false] |}) /\
  status_code
    (fst (post_v1_inference sample_settings
            (mock_client (inl (RateLimitError "Error code: 429"))
               (inr (hello_stream None)))
            hi_body (Reject "10 per 1 minute") fresh_world)) = 429.
Proof.
  apply (upstream_rate_limit_reported_as_429 sample_settings
           (mock_client (inl (RateLimitError "Error code: 429"))
              (inr (hello_stream None)))
           hi_body hi_request "Error code: 429" "10 per 1 minute" fresh_world);
    reflexivity.
Defined.

(** C3 as stated fails: the status for upstream throttling is 429, not a
    bad-gateway status, and it is the status of the local rejection. *)
Lemma upstream_rate_limit_status_not_distinct :
  status_code
    (fst (post_v1_inference sample_settings
            (mock_client (inl (RateLimitError "Error code: 429"))
               (inr (hello_stream None)))
            hi_body Admit fresh_world)) = 429 /\
  status_code
    (fst (post_v1_inference sample_settings
            (mock_client (inl (RateLimitError "Error code: 429"))
               (inr (hello_stream None)))
            hi_body (Reject "10 per 1 minute") fresh_world)) = 429 /\
  (429 =? 502) = false.
Proof. repeat split. Qed.



(** C5, at a stream that breaks after "Hel", an empty fragment and
    "lo". *)
Lemma stream_failure_ends_with_one_error_event_witness :
  send_body sample_settings
    (mock_client (inr hello_completion)
       (inr (hello_stream (Some (APIError "boom")))))
    5 (stream_openai_response hi_request) fresh_world
    = (map sse [Token "Hel"; Token "lo"; Error "LLM service error: boom"],
       Return Closed,
       {| metrics := {| total_requests := 0;
                        successful_requests := 0;
                        failed_requests := 0 + 1;
                        total_tokens := 0 |};
          upstream_calls := [create_args sample_settings hi_request true] |}) /\
  (forall more w',
     send_body sample_settings
       (mock_client (inr hello_completion)
          (inr (hello_stream (Some (APIError "boom")))))
       more Closed w' = ([], Return Closed, w')).
Proof.
  apply (stream_failure_ends_with_one_error_event sample_settings
           (mock_client (inr hello_completion)
              (inr (hello_stream (Some (APIError "boom")))))
           hi_request (openai.chunks (hello_stream None)) (APIError "boom")
           5%nat fresh_world).
  - reflexivity.
  - simpl. lia.
Defined.

(** C6, at a provider that completes without sending any fragment. *)
Lemma stream_completion_ends_with_one_done_event_witness :
  send_body sample_settings
    (mock_client (inr hello_completion)
       (inr {| openai.chunks := []; openai.failure := None |}))
    2 (stream_openai_response hi_request) fresh_world
    = (map sse (relayed [] ++ [Done]),
       Return Closed,
       {| metrics := {| total_requests := 0;
                        successful_requests := 0 + 1;
                        failed_requests := 0;
                        total_tokens := 0 |};
          upstream_calls := [create_args sample_settings hi_request true] |}) /\
  (relayed [] = [] ->
   fst (fst (send_body sample_settings
               (mock_client (inr hello_completion)
                  (inr {| openai.chunks := []; openai.failure := None |}))
               2 (stream_openai_response hi_request) fresh_world))
     = [sse Done]).
Proof.
  apply (stream_completion_ends_with_one_done_event sample_settings
           (mock_client (inr hello_completion)
              (inr {| openai.chunks := []; openai.failure := None |}))
           hi_request [] 2%nat fresh_world).
  - reflexivity.
  - simpl. lia.
Defined.

(** C7, at the fragments "Hel", "" and "lo" followed by completion. *)
Lemma relay_forwards_nonempty_fragments_in_order_witness :
  fst (fst (send_body sample_settings
              (mock_client (inr hello_completion) (inr (hello_stream None)))
              10 (stream_openai_response hi_request) fresh_world)) =
    firstn 10
      (List.app
         (map (fun text => "data: " ++ text ++ LF ++ LF)
              (filter nonempty
                 (map fragment_text (openai.chunks (hello_stream None)))))
         [sse (terminal None)]) /\
  (forall text text',
     "data: " ++ text ++ LF ++ LF = "data: " ++ text' ++ LF ++ LF ->
     text = text').
Proof.
  apply (relay_forwards_nonempty_fragments_in_order sample_settings
           (mock_client (inr hello_completion) (inr (hello_stream None)))
           hi_request (openai.chunks (hello_stream None)) None 10%nat
           fresh_world).
  reflexivity.
Defined.

(** C8, at the sample request with [stream] set to true. *)
Lemma stream_flag_on_blocking_endpoint_refused_witness :
  post_v1_inference sample_settings
    (mock_client (inr hello_completion) (inr (hello_stream None)))
    (with_stream (models.Given true) hi_body) Admit fresh_world =
    ({| status_code := 400;
        content :=
          JSONDetail "For streaming responses, use POST /v1/inference/stream" |},
     {| metrics := {| total_requests := 0 + 1;
                      successful_requests := 0;
                      failed_requests := 0;
                      total_tokens := 0 |};
        upstream_calls := [] |}).
Proof.
  apply (stream_flag_on_blocking_endpoint_refused sample_settings
           (mock_client (inr hello_completion) (inr (hello_stream None)))
           (with_stream (models.Given true) hi_body) hi_request_streaming
           fresh_world); reflexivity.
Defined.

(** C9 as stated fails: what the provider said about a wrong key reaches
    the caller word for word, in the detail of the blocking response and
    in the streaming error event. *)
Lemma upstream_error_text_reaches_caller :
  fst (post_v1_inference sample_settings
         (mock_client (inl (APIError key_error)) (inl (APIError key_error)))
         hi_body Admit fresh_world) =
    {| status_code := 502;
       content := JSONDetail ("LLM service error: " ++ key_error) |} /\
  mentions ("LLM service error: " ++ key_error) key_error = true /\
  fst (post_v1_inference_stream sample_settings
         (mock_client (inl (APIError key_error)) (inl (APIError key_error)))
         hi_body Admit 10 fresh_world) =
    {| status_code := 200;
       content :=
         EventStream
           ["data: [ERROR] LLM service error: " ++ key_error ++ LF ++ LF] |} /\
  mentions ("data: [ERROR] LLM service error: " ++ key_error ++ LF ++ LF)
    key_error = true.
Proof. repeat split. Qed.

(** C10, at the sample request, whose [stream] flag is false. *)
Lemma streaming_endpoint_ignores_stream_flag_witness :
  openai.arg_stream (create_args sample_settings hi_request true) = true /\
  upstream_calls
    (snd (post_v1_inference_stream sample_settings
            (mock_client (inr hello_completion) (inr (hello_stream None)))
            hi_body Admit 10 fresh_world))
    = (upstream_calls fresh_world
         ++ [create_args sample_settings hi_request true])%list /\
  fst (post_v1_inference_stream sample_settings
         (mock_client (inr hello_completion) (inr (hello_stream None)))
         hi_body Admit 10 fresh_world) =
    {| status_code := 200;
       content :=
         EventStream
           (firstn 10 (map sse [Token "Hel"; Token "lo"; Done])) |} /\
  post_v1_inference_stream sample_settings
    (mock_client (inr hello_completion) (inr (hello_stream None)))
    (with_stream (models.Given true) hi_body) Admit 10 fresh_world
    = post_v1_inference_stream sample_settings
        (mock_client (inr hello_completion) (inr (hello_stream None)))
        hi_body Admit 10 fresh_world.
Proof.
  apply (streaming_endpoint_ignores_stream_flag sample_settings
           (mock_client (inr hello_completion) (inr (hello_stream None)))
           hi_body hi_request (models.Given true) 10%nat fresh_world).
  - reflexivity.
  - lia.
Defined.

(** A completion whose first choice has no text content is counted as a
    success and then, when [InferenceResponse] refuses it, as a failure
    too; the caller gets status 500. *)
Example completion_without_content :
  post_v1_inference sample_settings
    (mock_client
       (inr {| openai.id := "x2";
               openai.choices :=
                 [{| openai.finish_reason := "content_filter";
                     openai.message := {| openai.content := None |} |}];
               openai.model := "m";
               openai.usage :=
                 Some {| openai.prompt_tokens := 3;
                         openai.completion_tokens := 0;
                         openai.total_tokens := 3 |} |})
       (inr (hello_stream None)))
    hi_body Admit fresh_world =
    ({| status_code := 500; content := JSONDetail "Internal server error" |},
     {| metrics := {| total_requests := 1;
                      successful_requests := 1;
                      failed_requests := 1;
                      total_tokens := 3 |};
        upstream_calls := [create_args sample_settings hi_request false] |}).
Proof. reflexivity. Qed.

(** * Further properties *)

Section counters.

Variable settings : config.Settings.
Variable client : openai.Client.

(** What one resumption of a generator does to the counters: it never
    raises, leaves [total_requests] and [total_tokens] alone, lowers
    nothing, and adds one to at most one of [successful_requests] and
    [failed_requests], and that only while the generator is pending. *)
Lemma anext_counts g w :
  exists ev g' w',
    anext settings client g w = (Return (ev, g'), w') /\
    total_requests (metrics w') = total_requests (metrics w) /\
    total_tokens (metrics w') = total_tokens (metrics w) /\
    successful_requests (metrics w) <= successful_requests (metrics w') /\
    failed_requests (metrics w) <= failed_requests (metrics w') /\
    successful_requests (metrics w') + failed_requests (metrics w')
      + pending g'
    <= successful_requests (metrics w) + failed_requests (metrics w)
      + pending g.
Proof.
  assert (loop : forall rest failure w0,
    exists ev g' w',
      anext settings client (InLoop rest failure) w0 = (Return (ev, g'), w') /\
      total_requests (metrics w') = total_requests (metrics w0) /\
      total_tokens (metrics w') = total_tokens (metrics w0) /\
      successful_requests (metrics w0) <= successful_requests (metrics w') /\
      failed_requests (metrics w0) <= failed_requests (metrics w') /\
      successful_requests (metrics w') + failed_requests (metrics w')
        + pending g'
      <= successful_requests (metrics w0) + failed_requests (metrics w0) + 1).
  { intros rest failure w0. unfold anext, try_except.
    destruct (for_chunk_in_world rest failure w0) as [Hw Hr].
    destruct (for_chunk_in rest failure w0) as [[[ev g']|e] w'];
      simpl in Hw, Hr; subst w'.
    - exists ev, g', w0. split; [reflexivity|].
      destruct g'; simpl in *; try discriminate; lia.
    - rewrite except_stream_run. do 3 eexists. split; [reflexivity|].
      simpl. lia. }
  destruct g as [r|rest failure| | |].
  - destruct (received (openai.create_stream client
                          (create_args settings r true)))
      as [chunks failure] eqn:H.
    rewrite (anext_Created _ _ _ _ _ _ H).
    destruct (loop chunks failure (called (create_args settings r true) w))
      as (ev & g' & w' & E & H1 & H2 & H3 & H4 & H5).
    exists ev, g', w'. split; [exact E|]. simpl in *. lia.
  - destruct (loop rest failure w) as (ev & g' & w' & E & H).
    exists ev, g', w'. split; [exact E|]. simpl. exact H.
  - do 3 eexists. split; [reflexivity|]. simpl. lia.
  - do 3 eexists. split; [reflexivity|]. simpl. lia.
  - do 3 eexists. split; [reflexivity|]. simpl. lia.
Qed.

Lemma pending_bounds g : 0 <= pending g <= 1.
Proof. destruct g; simpl; lia. Qed.

(** The same for any number of pulls on one generator. *)
Lemma send_body_counts n : forall g w,
  let w' := snd (send_body settings client n g w) in
  total_requests (metrics w') = total_requests (metrics w) /\
  total_tokens (metrics w') = total_tokens (metrics w) /\
  successful_requests (metrics w) <= successful_requests (metrics w') /\
  failed_requests (metrics w) <= failed_requests (metrics w') /\
  successful_requests (metrics w') + failed_requests (metrics w')
  <= successful_requests (metrics w) + failed_requests (metrics w)
     + pending g.
Proof.
  induction n as [|n IH]; intros g w; cbv zeta.
  - pose proof (pending_bounds g). simpl. lia.
  - destruct (anext_counts g w) as (ev & g' & w' & E & H1 & H2 & H3 & H4 & H5).
    cbn [send_body]. rewrite E.
    pose proof (pending_bounds g').
    destruct ev as [event|]; [|simpl; lia].
    specialize (IH g' w'). cbv zeta in IH.
    destruct (send_body settings client n g' w') as [[evs r] w''].
    simpl in IH |- *. lia.
Qed.

(** Pulls that stop short of the terminal event leave the world as it
    is. *)
Lemma send_body_InLoop_short chunks : forall failure n w,
  (n <= length (relayed chunks))%nat ->
  snd (send_body settings client n (InLoop chunks failure) w) = w.
Proof.
  induction chunks as [|chunk rest IH]; intros failure n w Hn.
  - destruct n; [reflexivity|simpl in Hn; lia].
  - destruct n as [|n]; [reflexivity|].
    destruct (nonempty (fragment_text chunk)) eqn:Hc.
    + assert (Hn' : (n <= length (relayed rest))%nat).
      { unfold relayed in Hn |- *. simpl in Hn. rewrite Hc in Hn.
        simpl in Hn. lia. }
      cbn [send_body anext]. rewrite (for_chunk_in_yield _ _ _ Hc).
      unfold try_except, ret.
      specialize (IH failure n w Hn').
      destruct (send_body settings client n (InLoop rest failure) w)
        as [[evs r] w'].
      exact IH.
    + assert (Hn' : (S n <= length (relayed rest))%nat).
      { unfold relayed in Hn |- *. simpl in Hn. rewrite Hc in Hn. exact Hn. }
      specialize (IH failure (S n) w Hn').
      cbn [send_body anext] in IH |- *.
      rewrite (for_chunk_in_skip _ _ _ Hc). exact IH.
Qed.

(** Every way the blocking handler can go, for the case analyses
    below. *)
Ltac blocking_cases :=
  unfold post_v1_inference;
  try match goal with d : Decision |- _ => destruct d end;
  unfold limiter_limit, generate_inference, bind, iadd, try_except,
    chat_completions_create, getitem0, getattr_usage, InferenceResponse;
  repeat first
    [ match goal with
      | |- context [models.validate ?b] =>
          destruct (models.validate b) eqn:?
      end
    | match goal with
      | |- context [truthy_bool ?x] => destruct (truthy_bool x) eqn:?
      end
    | match goal with
      | |- context [openai.create ?c ?a] => destruct (openai.create c a) eqn:?
      end
    | match goal with
      | |- context [@except_blocking _ ?e] => is_var e; destruct e
      end
    | match goal with
      | |- context [openai.choices ?r] => destruct (openai.choices r) eqn:?
      end
    | match goal with
      | |- context [openai.usage ?r] => destruct (openai.usage r) eqn:?
      end
    | match goal with
      | |- context [openai.content ?m] => destruct (openai.content m) eqn:?
      end
    | progress cbn ].

(** One blocking request adds at most one to [total_requests], and to
    [successful_requests] and [failed_requests] at most what it adds to
    [total_requests]. *)
Lemma post_v1_inference_counts body d w :
  let w' := snd (post_v1_inference settings client body d w) in
  total_requests (metrics w) <= total_requests (metrics w')
    <= total_requests (metrics w) + 1 /\
  0 <= successful_requests (metrics w') - successful_requests (metrics w)
    <= total_requests (metrics w') - total_requests (metrics w) /\
  0 <= failed_requests (metrics w') - failed_requests (metrics w)
    <= total_requests (metrics w') - total_requests (metrics w).
Proof. cbv zeta. blocking_cases; lia. Qed.

(** X1: a blocking request whose provider call raises is answered by
    the class of the exception: 429 for the provider's rate-limit error,
    502 for any other API error, 500 for anything else.  In each case
    the provider was called once and not again, [total_requests] and
    [failed_requests] grow by one, and [successful_requests] and
    [total_tokens] stay. *)
Theorem blocking_failure_is_classified_and_counted
    body inference_request e w :
  models.validate body = Some inference_request ->
  truthy_bool (models.stream inference_request) = false ->
  openai.create client (create_args settings inference_request false)
    = inl e ->
  post_v1_inference settings client body Admit w =
    ({| status_code :=
          if isinstance_RateLimitError e then 429
          else if isinstance_APIError e then 502
          else 500;
        content := JSONDetail (blocking_detail e) |},
     {| metrics :=
          {| total_requests := total_requests (metrics w) + 1;
             successful_requests := successful_requests (metrics w);
             failed_requests := failed_requests (metrics w) + 1;
             total_tokens := total_tokens (metrics w) |};
        upstream_calls :=
          (upstream_calls w ++ [create_args settings inference_request false])
            %list |}).
Proof.
  intros Hv Hs Hc. unfold post_v1_inference. rewrite Hv.
  unfold limiter_limit.
  rewrite (generate_inference_upstream_failure _ _ _ _ _ Hs Hc).
  destruct e; reflexivity.
Qed.

(** X2: a completion that the handler cannot turn into a response is
    answered with status 500 and counted as a failure.  Without a first
    choice nothing else is counted.  With a first choice the request has
    already been counted as a success when the fault is met: a missing
    usage record leaves [total_tokens] alone, missing text content comes
    after the tokens were added. *)
Theorem malformed_completion_is_counted_as_failure
    body inference_request response w :
  models.validate body = Some inference_request ->
  truthy_bool (models.stream inference_request) = false ->
  openai.create client (create_args settings inference_request false)
    = inr response ->
  let answer ds dt :=
    ({| status_code := 500; content := JSONDetail "Internal server error" |},
     {| metrics :=
          {| total_requests := total_requests (metrics w) + 1;
             successful_requests := successful_requests (metrics w) + ds;
             failed_requests := failed_requests (metrics w) + 1;
             total_tokens := total_tokens (metrics w) + dt |};
        upstream_calls :=
          (upstream_calls w ++ [create_args settings inference_request false])
            %list |}) in
  (openai.choices response = [] ->
   post_v1_inference settings client body Admit w = answer 0 0) /\
  (forall completion others,
     openai.choices response = completion :: others ->
     openai.usage response = None ->
     post_v1_inference settings client body Admit w = answer 1 0) /\
  (forall completion others u,
     openai.choices response = completion :: others ->
     openai.usage response = Some u ->
     openai.content (openai.message completion) = None ->
     post_v1_inference settings client body Admit w
       = answer 1 (openai.total_tokens u)).
Proof.
  intros Hv Hs Hc. cbv zeta.
  unfold post_v1_inference, limiter_limit, generate_inference, bind, iadd,
    try_except, chat_completions_create, getitem0, getattr_usage,
    InferenceResponse.
  rewrite Hv, Hs. cbn. rewrite Hc.
  destruct w as [[t s f k] calls]. cbn.
  repeat split.
  - intros ->. cbn. rewrite !Z.add_0_r. reflexivity.
  - intros completion others -> ->. cbn. rewrite !Z.add_0_r. reflexivity.
  - intros completion others u -> -> Hn. cbn. rewrite Hn. reflexivity.
Qed.

(** X3: whatever the body, the limiter's decision and the provider do,
    the blocking endpoint answers with one of six statuses, calls the
    provider at most once and then with [stream=False], lowers none of
    [total_requests], [successful_requests] and [failed_requests] and
    adds at most one to each; an answer with status 200 is counted as a
    success and not as a failure.  [total_tokens] is left alone or
    changed by exactly the [usage.total_tokens] of the completion that
    the provider returned, whatever its sign. *)
Theorem blocking_endpoint_effect body d w :
  let answer := post_v1_inference settings client body d w in
  In (status_code (fst answer)) [200; 400; 422; 429; 500; 502] /\
  (upstream_calls (snd answer) = upstream_calls w \/
   exists inference_request,
     models.validate body = Some inference_request /\
     upstream_calls (snd answer) =
       (upstream_calls w ++ [create_args settings inference_request false])
         %list) /\
  total_requests (metrics w) <= total_requests (metrics (snd answer))
    <= total_requests (metrics w) + 1 /\
  successful_requests (metrics w) <= successful_requests (metrics (snd answer))
    <= successful_requests (metrics w) + 1 /\
  failed_requests (metrics w) <= failed_requests (metrics (snd answer))
    <= failed_requests (metrics w) + 1 /\
  (status_code (fst answer) = 200 ->
   successful_requests (metrics (snd answer))
     = successful_requests (metrics w) + 1 /\
   failed_requests (metrics (snd answer)) = failed_requests (metrics w)) /\
  (total_tokens (metrics (snd answer)) = total_tokens (metrics w) \/
   exists inference_request response u,
     models.validate body = Some inference_request /\
     openai.create client (create_args settings inference_request false)
       = inr response /\
     openai.usage response = Some u /\
     total_tokens (metrics (snd answer))
       = total_tokens (metrics w) + openai.total_tokens u).
Proof.
  cbv zeta.
  pose proof (post_v1_inference_counts body d w) as Hcounts.
  cbv zeta in Hcounts.
  split; [|split; [|split; [lia|split; [lia|split; [lia|split]]]]].
  - clear Hcounts. blocking_cases; auto 7.
  - clear Hcounts. blocking_cases; eauto.
  - clear Hcounts. blocking_cases; intros ?; try discriminate; split; reflexivity.
  - clear Hcounts.
    destruct (models.validate body) as [inference_request|] eqn:Hv;
      [|left; unfold post_v1_inference; rewrite Hv; reflexivity].
    destruct d as [|limit];
      [|left; unfold post_v1_inference; rewrite Hv; reflexivity].
    unfold post_v1_inference. rewrite Hv.
    unfold limiter_limit, generate_inference, bind, iadd, try_except,
      chat_completions_create, getitem0, getattr_usage, InferenceResponse.
    destruct (truthy_bool _); [left; reflexivity|].
    destruct (openai.create client _) as [x|response] eqn:Hc;
      [left; destruct x; reflexivity|].
    destruct (openai.choices response) as [|completion others];
      [left; reflexivity|].
    destruct (openai.usage response) as [u|] eqn:Hu; [|left; reflexivity].
    right. exists inference_request, response, u.
    split; [reflexivity|]. split; [exact Hc|]. split; [exact Hu|].
    cbn. destruct (openai.content (openai.message completion)); reflexivity.
Qed.

(** X4: whatever the body, the limiter's decision, the provider and the
    number of events the caller reads, the streaming endpoint answers
    with status 200, 422 or 429, calls the provider at most once and
    then with [stream=True], never changes [total_tokens], lowers no
    counter, and counts the request at most once as a success or as a
    failure, never as both. *)
Theorem streaming_endpoint_effect body d pulls w :
  let answer := post_v1_inference_stream settings client body d pulls w in
  In (status_code (fst answer)) [200; 422; 429] /\
  (upstream_calls (snd answer) = upstream_calls w \/
   exists inference_request,
     models.validate body = Some inference_request /\
     upstream_calls (snd answer) =
       (upstream_calls w ++ [create_args settings inference_request true])
         %list) /\
  total_tokens (metrics (snd answer)) = total_tokens (metrics w) /\
  total_requests (metrics w) <= total_requests (metrics (snd answer))
    <= total_requests (metrics w) + 1 /\
  successful_requests (metrics w)
    <= successful_requests (metrics (snd answer)) /\
  failed_requests (metrics w) <= failed_requests (metrics (snd answer)) /\
  (successful_requests (metrics (snd answer))
     - successful_requests (metrics w))
  + (failed_requests (metrics (snd answer)) - failed_requests (metrics w))
  <= total_requests (metrics (snd answer)) - total_requests (metrics w).
Proof.
  cbv zeta. unfold post_v1_inference_stream.
  destruct (models.validate body) as [inference_request|] eqn:Hv.
  2:{ simpl. repeat split; auto; lia. }
  destruct d as [|limit].
  2:{ simpl. repeat split; auto; lia. }
  unfold limiter_limit, generate_inference_stream, bind, iadd, ret.
  cbn [body_iterator].
  pose proof (send_body_counts pulls
                (stream_openai_response inference_request)
                (counted Ktotal_requests 1 w)) as Hc.
  cbv zeta in Hc. unfold counted in Hc.
  assert (Hcalls :
    upstream_calls
      (snd (send_body settings client pulls
              (stream_openai_response inference_request)
              (counted Ktotal_requests 1 w))) = upstream_calls w \/
    upstream_calls
      (snd (send_body settings client pulls
              (stream_openai_response inference_request)
              (counted Ktotal_requests 1 w))) =
      (upstream_calls w ++ [create_args settings inference_request true])
        %list).
  { destruct pulls as [|n]; [left; reflexivity|]. right.
    apply (send_body_stream_world settings client inference_request n
             (counted Ktotal_requests 1 w)). }
  unfold counted in Hcalls.
  destruct (send_body settings client pulls _ _) as [[evs r] w'].
  simpl in Hc, Hcalls |- *.
  split; [auto|]. split; [destruct Hcalls; eauto|]. lia.
Qed.

(** X5: a stream that the caller abandons before its terminal event is
    counted in [total_requests] only: neither [successful_requests] nor
    [failed_requests] changes.  The same holds for a stream that
    completes and is read up to and including the done event but not
    beyond: the success is counted only on the pull after it. *)
Theorem abandoned_stream_is_counted_in_neither
    body inference_request chunks failure pulls w :
  models.validate body = Some inference_request ->
  received (openai.create_stream client
              (create_args settings inference_request true))
    = (chunks, failure) ->
  (pulls <= length (relayed chunks))%nat \/
  (failure = None /\ pulls = (length (relayed chunks) + 1)%nat) ->
  metrics (snd (post_v1_inference_stream settings client body Admit pulls w))
    = {| total_requests := total_requests (metrics w) + 1;
         successful_requests := successful_requests (metrics w);
         failed_requests := failed_requests (metrics w);
         total_tokens := total_tokens (metrics w) |} /\
  content (fst (post_v1_inference_stream settings client body Admit pulls w))
    = EventStream (firstn pulls (map sse (relayed chunks ++ [terminal failure]))).
Proof.
  intros Hv Hr Hp. unfold post_v1_inference_stream. rewrite Hv.
  unfold limiter_limit, generate_inference_stream, bind, iadd, ret.
  cbn [body_iterator].
  pose proof (send_body_stream_events settings client inference_request
                chunks failure pulls
                {| metrics := metrics_iadd Ktotal_requests 1 (metrics w);
                   upstream_calls := upstream_calls w |} Hr) as Hev.
  assert (Hm :
    metrics
      (snd (send_body settings client pulls
              (stream_openai_response inference_request)
              {| metrics := metrics_iadd Ktotal_requests 1 (metrics w);
                 upstream_calls := upstream_calls w |}))
    = metrics_iadd Ktotal_requests 1 (metrics w)).
  { destruct pulls as [|n]; [reflexivity|].
    unfold stream_openai_response.
    rewrite (send_body_Created _ _ _ _ _ _ _ Hr).
    destruct Hp as [Hp|[-> Hp]].
    - rewrite (send_body_InLoop_short chunks failure (S n) _ Hp). reflexivity.
    - rewrite Hp. rewrite send_body_up_to_done. reflexivity. }
  destruct (send_body settings client pulls _ _) as [[evs r] w'].
  simpl in Hev, Hm |- *. subst evs. rewrite Hm. split; reflexivity.
Qed.

Lemma relayed_app chunks chunks' :
  relayed (chunks ++ chunks') = (relayed chunks ++ relayed chunks')%list.
Proof.
  unfold relayed. rewrite map_app, filter_app, map_app. reflexivity.
Qed.

(** X6: the terminal markers are not reserved.  A fragment whose text is
    "[DONE]" is relayed as the very line of the done event, and one
    whose text is "[ERROR] " followed by a description as the very line
    of the error event with that description, in the middle of the
    stream and with further events after it. *)
Theorem fragment_can_pass_for_terminal_event
    inference_request before chunk after failure pulls w :
  received (openai.create_stream client
              (create_args settings inference_request true))
    = ((before ++ chunk :: after)%list, failure) ->
  (length (before ++ chunk :: after) + 2 <= pulls)%nat ->
  let events ev :=
    (map sse (relayed before)
       ++ sse ev :: map sse (relayed after ++ [terminal failure]))%list in
  (fragment_text chunk = "[DONE]" ->
   fst (fst (send_body settings client pulls
               (stream_openai_response inference_request) w))
     = events Done) /\
  (forall description,
     fragment_text chunk = "[ERROR] " ++ description ->
     fst (fst (send_body settings client pulls
                 (stream_openai_response inference_request) w))
       = events (Error description)).
Proof.
  intros Hr Hp. cbv zeta.
  rewrite (send_body_stream settings client _ _ _ _ _ Hr Hp).
  cbn [fst].
  change (chunk :: after) with ([chunk] ++ after)%list.
  rewrite !relayed_app, <- !app_assoc, !map_app.
  split.
  - intros Ht. unfold relayed at 2. simpl. rewrite Ht. reflexivity.
  - intros description Ht. unfold relayed at 2. simpl. rewrite Ht.
    reflexivity.
Qed.

(** A validated request has no temperature, or one within the range. *)
Lemma validated_temperature body inference_request t :
  models.validate body = Some inference_request ->
  models.temperature inference_request = Some t ->
  PrimFloat.ltb t 0%float = false /\ PrimFloat.ltb 2%float t = false.
Proof.
  unfold models.validate, models.temperature_ok.
  destruct (models.body_messages body); try discriminate.
  destruct (models.body_temperature body) as [| |t'] eqn:Ht.
  - intros H; injection H as <-. simpl. intros H; injection H as <-.
    split; reflexivity.
  - intros H; injection H as <-. simpl. discriminate.
  - destruct (PrimFloat.ltb t' 0%float) eqn:H0; [discriminate|].
    destruct (PrimFloat.ltb 2%float t') eqn:H2; [discriminate|].
    simpl. intros H; injection H as <-. simpl. intros H; injection H as <-.
    auto.
Qed.

Lemma post_v1_inference_calls body d w :
  upstream_calls (snd (post_v1_inference settings client body d w))
    = upstream_calls w \/
  exists inference_request,
    models.validate body = Some inference_request /\
    upstream_calls (snd (post_v1_inference settings client body d w)) =
      (upstream_calls w ++ [create_args settings inference_request false])
        %list.
Proof. blocking_cases; eauto. Qed.

Lemma post_v1_inference_stream_calls body d pulls w :
  upstream_calls (snd (post_v1_inference_stream settings client body d pulls w))
    = upstream_calls w \/
  exists inference_request,
    models.validate body = Some inference_request /\
    upstream_calls
      (snd (post_v1_inference_stream settings client body d pulls w)) =
      (upstream_calls w ++ [create_args settings inference_request true])
        %list.
Proof.
  unfold post_v1_inference_stream.
  destruct (models.validate body) as [inference_request|] eqn:Hv;
    [|left; reflexivity].
  destruct d as [|limit]; [|left; reflexivity].
  unfold limiter_limit, generate_inference_stream, bind, iadd, ret.
  cbn [body_iterator].
  destruct pulls as [|n]; [left; reflexivity|]. right.
  exists inference_request. split; [reflexivity|].
  pose proof (send_body_stream_world settings client inference_request n
                (counted Ktotal_requests 1 w)) as [H _].
  unfold counted in H.
  destruct (send_body settings client (S n) _ _) as [[evs r] w'].
  exact H.
Qed.

(** X7: every call that either endpoint makes on the provider names the
    model that [GET /health] reports, and carries no temperature or one
    that is neither below 0.0 nor above 2.0. *)
Theorem provider_calls_use_configured_model_and_valid_temperature
    body d pulls w args :
  In args (upstream_calls (snd (post_v1_inference settings client body d w)))
  \/ In args (upstream_calls
                (snd (post_v1_inference_stream settings client body d pulls w)))
  ->
  In args (upstream_calls w) \/
  (openai.arg_model args = health_model (health_check settings) /\
   forall t,
     openai.arg_temperature args = Some t ->
     PrimFloat.ltb t 0%float = false /\ PrimFloat.ltb 2%float t = false).
Proof.
  intros [H|H].
  - destruct (post_v1_inference_calls body d w) as [E|(r & Hv & E)];
      rewrite E in H; [auto|].
    apply in_app_or in H. destruct H as [H|[<-|[]]]; [auto|].
    right. split; [reflexivity|].
    intros t Ht. exact (validated_temperature _ _ _ Hv Ht).
  - destruct (post_v1_inference_stream_calls body d pulls w)
      as [E|(r & Hv & E)]; rewrite E in H; [auto|].
    apply in_app_or in H. destruct H as [H|[<-|[]]]; [auto|].
    right. split; [reflexivity|].
    intros t Ht. exact (validated_temperature _ _ _ Hv Ht).
Qed.

Lemma blocking_call_made body inference_request w :
  models.validate body = Some inference_request ->
  truthy_bool (models.stream inference_request) = false ->
  upstream_calls (snd (post_v1_inference settings client body Admit w)) =
    (upstream_calls w ++ [create_args settings inference_request false])%list.
Proof.
  intros Hv Hs. unfold post_v1_inference. rewrite Hv.
  unfold limiter_limit, generate_inference, bind, iadd, try_except,
    chat_completions_create, getitem0, getattr_usage, InferenceResponse.
  rewrite Hs.
  repeat first
    [ match goal with
      | |- context [openai.create ?c ?a] => destruct (openai.create c a) eqn:?
      end
    | match goal with
      | |- context [@except_blocking _ ?e] => is_var e; destruct e
      end
    | match goal with
      | |- context [openai.choices ?r] => destruct (openai.choices r) eqn:?
      end
    | match goal with
      | |- context [openai.usage ?r] => destruct (openai.usage r) eqn:?
      end
    | match goal with
      | |- context [openai.content ?m] => destruct (openai.content m) eqn:?
      end
    | progress cbn ]; reflexivity.
Qed.

Lemma stream_call_made body inference_request n w :
  models.validate body = Some inference_request ->
  upstream_calls
    (snd (post_v1_inference_stream settings client body Admit (S n) w)) =
    (upstream_calls w ++ [create_args settings inference_request true])%list.
Proof.
  intros Hv. unfold post_v1_inference_stream. rewrite Hv.
  unfold limiter_limit, generate_inference_stream, bind, iadd, ret.
  cbn [body_iterator].
  pose proof (send_body_stream_world settings client inference_request n
                (counted Ktotal_requests 1 w)) as [H _].
  unfold counted in H.
  destruct (send_body settings client (S n) _ _) as [[evs r] w'].
  exact H.
Qed.

(** X8: a body that gives only the messages is dispatched with the
    defaults: on an admitted request the provider is called once with
    the messages as role and content pairs in their order, 500 for
    [max_tokens] and 0.7 for [temperature]; a body that sets the other
    fields to [null] is dispatched with [None] for both.  The blocking
    endpoint calls with [stream=False], the streaming endpoint, once the
    caller reads, with [stream=True]. *)
Theorem omitted_fields_are_dispatched_with_defaults ms n w :
  let call max_tokens temperature stream :=
    {| openai.arg_model := config.OPENAI_MODEL settings;
       openai.arg_messages :=
         map (fun m => [("role", models.role m);
                        ("content", models.content m)]) ms;
       openai.arg_max_tokens := max_tokens;
       openai.arg_temperature := temperature;
       openai.arg_stream := stream |} in
  upstream_calls
    (snd (post_v1_inference settings client
            (messages_only (@models.Absent) ms) Admit w))
    = (upstream_calls w
         ++ [call (Some 500) (Some models.default_temperature) false])%list /\
  upstream_calls
    (snd (post_v1_inference_stream settings client
            (messages_only (@models.Absent) ms) Admit (S n) w))
    = (upstream_calls w
         ++ [call (Some 500) (Some models.default_temperature) true])%list /\
  upstream_calls
    (snd (post_v1_inference settings client
            (messages_only (@models.Null) ms) Admit w))
    = (upstream_calls w ++ [call None None false])%list /\
  upstream_calls
    (snd (post_v1_inference_stream settings client
            (messages_only (@models.Null) ms) Admit (S n) w))
    = (upstream_calls w ++ [call None None true])%list.
Proof.
  cbv zeta.
  set (defaults := {| models.messages := ms;
                      models.max_tokens := Some 500;
                      models.temperature := Some models.default_temperature;
                      models.stream := Some false |}).
  set (nulls := {| models.messages := ms;
                   models.max_tokens := None;
                   models.temperature := None;
                   models.stream := None |}).
  repeat split.
  - exact (blocking_call_made (messages_only (@models.Absent) ms) defaults w
             eq_refl eq_refl).
  - exact (stream_call_made (messages_only (@models.Absent) ms) defaults n w
             eq_refl).
  - exact (blocking_call_made (messages_only (@models.Null) ms) nulls w
             eq_refl eq_refl).
  - exact (stream_call_made (messages_only (@models.Null) ms) nulls n w
             eq_refl).
Qed.

End counters.

Lemma pending_all_app streams stream :
  pending_all (streams ++ [stream]) = pending_all streams + pending (snd stream).
Proof.
  induction streams as [|[c g] rest IH]; destruct stream as [c' g']; simpl.
  - lia.
  - simpl in IH. rewrite IH. lia.
Qed.

Lemma pending_all_nonneg streams : 0 <= pending_all streams.
Proof.
  induction streams as [|[c g] rest IH]; simpl; [lia|].
  pose proof (pending_bounds g). lia.
Qed.

Lemma pending_all_replace streams : forall i c g c' g',
  nth_error streams i = Some (c, g) ->
  pending_all (replace_at i (c', g') streams)
    = pending_all streams - pending g + pending g'.
Proof.
  induction streams as [|[c0 g0] rest IH]; intros i c g c' g' H.
  - destruct i; discriminate.
  - destruct i as [|i]; simpl in H |- *.
    + injection H as -> ->. lia.
    + rewrite (IH i c g c' g' H). lia.
Qed.

(** Every action of the server keeps the counters consistent. *)
Lemma step_consistent settings s a :
  counters_consistent s -> counters_consistent (step settings s a).
Proof.
  unfold counters_consistent. intros (Hs & Hf & Hst & Hft).
  destruct a as [client body d|client body d|i|]; cbn [step].
  - pose proof (post_v1_inference_counts settings client body d (world s)) as H.
    cbv zeta in H. cbn [world open_streams]. lia.
  - destruct (models.validate body) as [inference_request|]; [|auto].
    destruct d as [|limit]; simpl; [|auto].
    rewrite pending_all_app. simpl. lia.
  - destruct (nth_error (open_streams s) i) as [[client g]|] eqn:Hi; [|auto].
    destruct (anext_counts settings client g (world s))
      as (ev & g' & w' & E & H1 & H2 & H3 & H4 & H5).
    rewrite E. cbn [world open_streams].
    rewrite (pending_all_replace _ _ _ _ client g' Hi).
    pose proof (pending_bounds g'). pose proof (pending_bounds g).
    lia.
  - auto.
Qed.

Lemma run_consistent settings actions : forall s,
  counters_consistent s -> counters_consistent (run settings actions s).
Proof.
  induction actions as [|a rest IH]; intros s H; [exact H|].
  apply IH. apply step_consistent. exact H.
Qed.

Lemma started_server_consistent : counters_consistent started_server.
Proof. unfold counters_consistent; simpl; lia. Qed.

(** X9: from a fresh start, after any sequence of blocking requests,
    streaming requests, pulls on open streams in any interleaving, and
    metrics reads, with any bodies, limiter decisions and provider
    behaviour, none of [total_requests], [successful_requests] and
    [failed_requests] is negative, and neither [successful_requests]
    nor [failed_requests] exceeds [total_requests], also while streams
    are still open.  [total_tokens] has no such bound: one blocking
    request against a provider that reports a negative usage total
    leaves it below zero. *)
Theorem counters_stay_within_total_requests settings actions :
  let m := metrics (world (run settings actions started_server)) in
  0 <= total_requests m /\
  0 <= successful_requests m <= total_requests m /\
  0 <= failed_requests m <= total_requests m /\
  exists client body,
    total_tokens
      (metrics
         (world (run settings [PostInference client body Admit]
                   started_server))) < 0.
Proof.
  cbv zeta.
  destruct (run_consistent settings actions started_server
              started_server_consistent) as (Hs & Hf & Hst & Hft).
  pose proof (pending_all_nonneg
                (open_streams (run settings actions started_server))).
  split; [lia|]. split; [lia|]. split; [lia|].
  exists (mock_client (inr negative_usage_completion)
            (inr (hello_stream None))), hi_body.
  reflexivity.
Qed.

(** X10: [GET /metrics] never divides by zero: in any world the success
    rate is the int 0 when [total_requests] is not positive and
    otherwise the quotient of [successful_requests] by
    [total_requests].  After any run of the server from a fresh start,
    the rate is 0 only while no request has been counted, and otherwise
    a quotient whose dividend lies between 0 and its divisor. *)
Theorem success_rate_is_defined_and_within_bounds settings actions w :
  match success_rate (get_metrics w) with
  | Int z => z = 0 /\ total_requests (metrics w) <= 0
  | TrueDiv a b =>
      a = successful_requests (metrics w) /\
      b = total_requests (metrics w) /\ 0 < b
  end /\
  match success_rate
          (get_metrics (world (run settings actions started_server)))
  with
  | Int z =>
      z = 0 /\
      report_total_requests
        (get_metrics (world (run settings actions started_server))) = 0
  | TrueDiv a b => 0 <= a <= b /\ 0 < b
  end.
Proof.
  split.
  - unfold get_metrics. cbn [success_rate].
    destruct (0 <? total_requests (metrics w)) eqn:H.
    + apply Z.ltb_lt in H. auto.
    + apply Z.ltb_ge in H. auto.
  - destruct (run_consistent settings actions started_server
                started_server_consistent) as (Hs & Hf & Hst & Hft).
    pose proof (pending_all_nonneg
                  (open_streams (run settings actions started_server))).
    unfold get_metrics. cbn [success_rate report_total_requests].
    destruct (0 <? total_requests
                     (metrics (world (run settings actions started_server))))
      eqn:H0.
    + apply Z.ltb_lt in H0. lia.
    + apply Z.ltb_ge in H0. lia.
Qed.

(** X11: importing the configuration succeeds exactly when the
    environment sets OPENAI_API_KEY to a non-empty string.  Without the
    variable, or with the empty string, the import raises; with a key it
    yields settings that hold the key, and the model the environment
    names or "gpt-3.5-turbo" when it names none. *)
Theorem import_config_needs_api_key environ :
  ((environ "OPENAI_API_KEY" = None \/ environ "OPENAI_API_KEY" = Some "") ->
   import_config environ =
     inl (Exception "OPENAI_API_KEY must be set in environment variables")) /\
  (forall a key,
     environ "OPENAI_API_KEY" = Some (String a key) ->
     exists settings,
       import_config environ = inr settings /\
       config.OPENAI_API_KEY settings = String a key /\
       config.OPENAI_MODEL settings =
         match environ "OPENAI_MODEL" with
         | Some model => model
         | None => "gpt-3.5-turbo"
         end).
Proof.
  unfold import_config, Settings, config.validate, getenv.
  cbn [config.OPENAI_API_KEY].
  split.
  - intros [-> | ->]; reflexivity.
  - intros a key ->. eexists. split; [reflexivity|]. split; reflexivity.
Qed.

(** X12: a body whose [messages] field is left out or [null] is refused
    with status 422 on both endpoints, whatever its other fields and the
    limiter's decision; no counter changes and the provider is not
    called. *)
Theorem missing_messages_are_refused
    settings client body d pulls w :
  models.body_messages body = models.Absent \/
  models.body_messages body = models.Null ->
  post_v1_inference settings client body d w =
    ({| status_code := 422; content := JSONValidationErrors |}, w) /\
  post_v1_inference_stream settings client body d pulls w =
    ({| status_code := 422; content := JSONValidationErrors |}, w).
Proof.
  intros H. unfold post_v1_inference, post_v1_inference_stream, models.validate.
  destruct H as [-> | ->]; split; reflexivity.
Qed.

(** * Concrete runs of the further properties *)

(** X1, at a provider that refuses the key. *)
Lemma blocking_failure_is_classified_and_counted_witness :
  post_v1_inference sample_settings
    (mock_client (inl (APIError key_error)) (inr (hello_stream None)))
    hi_body Admit fresh_world =
    ({| status_code := 502;
        content := JSONDetail ("LLM service error: " ++ key_error) |},
     {| metrics := {| total_requests := 0 + 1;
                      successful_requests := 0;
                      failed_requests := 0 + 1;
                      total_tokens := 0 |};
        upstream_calls := [create_args sample_settings hi_request false] |}).
Proof.
  apply (blocking_failure_is_classified_and_counted sample_settings
           (mock_client (inl (APIError key_error)) (inr (hello_stream None)))
           hi_body hi_request (APIError key_error) fresh_world);
    reflexivity.
Defined.

(** X2, at a completion without any choice. *)
Lemma malformed_completion_is_counted_as_failure_witness :
  post_v1_inference sample_settings
    (mock_client (inr choiceless_completion) (inr (hello_stream None)))
    hi_body Admit fresh_world =
    ({| status_code := 500; content := JSONDetail "Internal server error" |},
     {| metrics := {| total_requests := 0 + 1;
                      successful_requests := 0 + 0;
                      failed_requests := 0 + 1;
                      total_tokens := 0 + 0 |};
        upstream_calls := [create_args sample_settings hi_request false] |}).
Proof.
  exact (proj1
           (malformed_completion_is_counted_as_failure sample_settings
              (mock_client (inr choiceless_completion)
                 (inr (hello_stream None)))
              hi_body hi_request choiceless_completion fresh_world
              eq_refl eq_refl eq_refl)
           eq_refl).
Defined.

(** X5, at the sample stream read for its two content events only. *)
Lemma abandoned_stream_is_counted_in_neither_witness :
  metrics
    (snd (post_v1_inference_stream sample_settings
            (mock_client (inr hello_completion) (inr (hello_stream None)))
            hi_body Admit 2 fresh_world))
    = {| total_requests := 0 + 1;
         successful_requests := 0;
         failed_requests := 0;
         total_tokens := 0 |} /\
  content
    (fst (post_v1_inference_stream sample_settings
            (mock_client (inr hello_completion) (inr (hello_stream None)))
            hi_body Admit 2 fresh_world))
    = EventStream (firstn 2 (map sse [Token "Hel"; Token "lo"; Done])).
Proof.
  apply (abandoned_stream_is_counted_in_neither sample_settings
           (mock_client (inr hello_completion) (inr (hello_stream None)))
           hi_body hi_request (openai.chunks (hello_stream None)) None
           2%nat fresh_world).
  - reflexivity.
  - reflexivity.
  - left. simpl. lia.
Defined.

(** X6, at a stream whose second fragment is "[DONE]". *)
Lemma fragment_can_pass_for_terminal_event_witness :
  fst (fst (send_body sample_settings
              (mock_client (inr hello_completion) (inr marker_stream))
              5 (stream_openai_response hi_request) fresh_world))
    = map sse [Token "Hel"; Done; Token "lo"; Done].
Proof.
  exact (proj1
           (fragment_can_pass_for_terminal_event sample_settings
              (mock_client (inr hello_completion) (inr marker_stream))
              hi_request [text_chunk "Hel"] (text_chunk "[DONE]")
              [text_chunk "lo"] None 5%nat fresh_world
              eq_refl (le_n 5))
           eq_refl).
Defined.

(** X7, at the call of the sample blocking request. *)
Lemma provider_calls_use_configured_model_and_valid_temperature_witness :
  In (create_args sample_settings hi_request false)
    (upstream_calls fresh_world) \/
  (openai.arg_model (create_args sample_settings hi_request false)
     = health_model (health_check sample_settings) /\
   forall t,
     openai.arg_temperature (create_args sample_settings hi_request false)
       = Some t ->
     PrimFloat.ltb t 0%float = false /\ PrimFloat.ltb 2%float t = false).
Proof.
  apply (provider_calls_use_configured_model_and_valid_temperature
           sample_settings
           (mock_client (inr hello_completion) (inr (hello_stream None)))
           hi_body Admit 0%nat fresh_world
           (create_args sample_settings hi_request false)).
  left. simpl. left. reflexivity.
Defined.

(** X12, at the sample body without its messages. *)
Lemma missing_messages_are_refused_witness :
  post_v1_inference sample_settings
    (mock_client (inr hello_completion) (inr (hello_stream None)))
    messageless_body Admit fresh_world =
    ({| status_code := 422; content := JSONValidationErrors |}, fresh_world) /\
  post_v1_inference_stream sample_settings
    (mock_client (inr hello_completion) (inr (hello_stream None)))
    messageless_body Admit 10 fresh_world =
    ({| status_code := 422; content := JSONValidationErrors |}, fresh_world).
Proof.
  apply (missing_messages_are_refused sample_settings
           (mock_client (inr hello_completion) (inr (hello_stream None)))
           messageless_body Admit 10%nat fresh_world).
  left. reflexivity.
Defined.
